(** * The status endpoint of the dashboard: [src/app/api/progress/route.ts]

    The route module keeps one status record.  [GET] hands the current
    record to the dashboard, [POST] lets the automation process overwrite
    it.  The record lives in the external key-value store when the two KV
    credentials are configured and in the module variable [fallbackStore]
    otherwise.

    The handlers are embedded as computations of a small monad that threads
    the process and backend state, can throw, and records the backend calls
    and console lines it makes.  JavaScript values, truthiness, the
    [||] / [&&] operators and the passage of a value through JSON are
    modelled as far as the handlers use them. *)

From stdpp Require Import gmap strings list fin_maps.

Local Open Scope string_scope.
Set Warnings "-register-all".

(** ** JavaScript values *)

Module JS.

(** A number as [JSON.parse] yields it: a finite double,
    [mantissa * 2 ^ exponent], or, for a literal beyond the range of a
    double such as [1e400], an infinity.  The handlers test numbers for
    truthiness only, which tells zero from the rest, and pass them through
    JSON, which tells the finite from the infinite. *)
Inductive number :=
| Number (mantissa exponent : Z)
| Infinity (negative : bool).

(** The values [request.json()] can yield, plus [undefined], the result of
    reading a property that is not there.  Object members are kept in
    source order. *)
Inductive value :=
| VUndefined
| VNull
| VBool (b : bool)
| VNumber (n : number)
| VString (s : string)
| VArray (items : list value)
| VObject (members : list (string * value)).

(** ToBoolean. *)
Definition truthy (v : value) : bool :=
  match v with
  | VUndefined | VNull => false
  | VBool b => b
  | VNumber (Number mantissa _) => negb (mantissa =? 0)%Z
  | VNumber (Infinity _) => true
  | VString s => negb (String.eqb s "")
  | VArray _ | VObject _ => true
  end.

(** [a || b] and [a && b] on values. *)
Definition or (a b : value) : value := if truthy a then a else b.
Definition and (a b : value) : value := if truthy a then b else a.

(** The value of key [k] in a member list: a later member with the same
    key overrides an earlier one, in an object literal as in JSON text. *)
Fixpoint own_property (k : string) (members : list (string * value)) : option value :=
  match members with
  | [] => None
  | (k', v) :: rest =>
      match own_property k rest with
      | Some v' => Some v'
      | None => if String.eqb k k' then Some v else None
      end
  end.

(** Removing every member with key [k]. *)
Definition without (k : string) (members : list (string * value)) : list (string * value) :=
  filter (λ m, m.1 ≠ k) members.

(** The members an object keeps when written as JSON: a member whose value
    is [undefined] is left out. *)
Definition json_members (f : value → value) : list (string * value) → list (string * value) :=
  fix go ms :=
    match ms with
    | [] => []
    | (k, VUndefined) :: rest => go rest
    | (k, x) :: rest => (k, f x) :: go rest
    end.

(** [JSON.parse(JSON.stringify(v))], what is left of a value that is written
    as JSON and read back: an infinity becomes [null], as does [undefined]
    inside an array; everything else that [JSON.parse] can yield comes back
    as it was. *)
Fixpoint to_json (v : value) : value :=
  match v with
  | VNumber (Infinity _) => VNull
  | VArray items =>
      VArray (map (λ x, match x with VUndefined => VNull | _ => to_json x end) items)
  | VObject members => VObject (json_members to_json members)
  | _ => v
  end.

(** What a thrown exception is. *)
Inductive error := SyntaxError | TypeError | KvError.

End JS.

Export JS.

(** ** The world the handlers run in *)

(** [env] is [process.env]; [kv_up] tells whether the KV REST service
    answers a call or makes it throw; [kv_data] is the content of the KV
    store; [fallbackStore] is the module variable of that name. *)
Record World := mkWorld {
  env : gmap string string;
  kv_up : bool;
  kv_data : gmap string value;
  fallbackStore : value
}.

(** Backend calls and console lines, in the order they happen. *)
Inductive Event :=
| KvGet (key : string)
| KvSet (key : string) (v : value)
| ConsoleError (label : string) (e : error).

Inductive outcome (A : Type) :=
| Return (a : A)
| Throw (e : error).
Arguments Return {A} a.
Arguments Throw {A} e.

(** State, exceptions and an event log.  State changes made before a throw
    stay, as in JavaScript. *)
Definition M (A : Type) : Type := World → outcome A * World * list Event.

Global Instance M_ret : MRet M := λ A a w, (Return a, w, []).

Global Instance M_bind : MBind M := λ A B f m w,
  match m w with
  | (Return a, w', t) =>
      match f a w' with
      | (r, w'', t') => (r, w'', (t ++ t')%list)
      end
  | (Throw e, w', t) => (Throw e, w', t)
  end.

Definition throw {A} (e : error) : M A := λ w, (Throw e, w, []).

(** [try { body } catch (error) { handler }]. *)
Definition try_catch {A} (body : M A) (handler : error → M A) : M A := λ w,
  match body w with
  | (Return a, w', t) => (Return a, w', t)
  | (Throw e, w', t) =>
      match handler e w' with
      | (r, w'', t') => (r, w'', (t ++ t')%list)
      end
  end.

Definition emit (ev : Event) : M unit := λ w, (Return (), w, [ev]).

(** [process.env.NAME]: the string, or [undefined] when the variable is
    not set. *)
Definition process_env (name : string) : M value := λ w,
  (Return (from_option VString VUndefined (env w !! name)), w, []).

(** [kv_data] holds values as the store keeps them, that is, as they come
    back from the JSON text the client writes.

    [kv.get(key)]: the stored value, [null] when the key is absent; throws
    when the service does not answer. *)
Definition kv_get (key : string) : M value := λ w,
  if kv_up w
  then (Return (default VNull (kv_data w !! key)), w, [KvGet key])
  else (Throw KvError, w, [KvGet key]).

Definition with_kv_data (d : gmap string value) (w : World) : World :=
  {| env := env w; kv_up := kv_up w; kv_data := d; fallbackStore := fallbackStore w |}.

Definition with_fallbackStore (v : value) (w : World) : World :=
  {| env := env w; kv_up := kv_up w; kv_data := kv_data w; fallbackStore := v |}.

(** [kv.set(key, v)]: the client writes [v] as JSON. *)
Definition kv_set (key : string) (v : value) : M unit := λ w,
  if kv_up w
  then (Return (), with_kv_data (<[key := to_json v]> (kv_data w)) w, [KvSet key v])
  else (Throw KvError, w, [KvSet key v]).

Definition read_fallbackStore : M value := λ w, (Return (fallbackStore w), w, []).

(** [fallbackStore = v]. *)
Definition write_fallbackStore (v : value) : M unit := λ w,
  (Return (), with_fallbackStore v w, []).

Definition console_error (label : string) (e : error) : M unit :=
  emit (ConsoleError label e).

(** The data property [k] of a value that has properties: an object yields
    the member or [undefined]; a primitive or an array has none of the keys
    the handlers read ([status], [message], [reelId], [sender]), which no
    built-in prototype defines either. *)
Definition lookup_property (o : value) (k : string) : value :=
  match o with
  | VObject members => default VUndefined (own_property k members)
  | _ => VUndefined
  end.

(** [o.k]: reading a property of [null] or [undefined] throws a
    TypeError. *)
Definition get_property (o : value) (k : string) : M value :=
  match o with
  | VUndefined | VNull => throw TypeError
  | _ => mret (lookup_property o k)
  end.

(** ** Requests and responses *)

(** The body of a request as [request.json()] sees it: text that does not
    parse, or the parsed value. *)
Inductive Body :=
| Malformed
| Json (v : value).

Record Request := mkRequest { body : Body }.

Definition request_json (request : Request) : M value :=
  match body request with
  | Malformed => throw SyntaxError
  | Json v => mret v
  end.

(** What [NextResponse.json(data, init)] is given: the HTTP status and the
    value to serialise. *)
Record Response := mkResponse { code : nat; data : value }.

(** The body a client reads from the response with [res.json()]. *)
Definition wire (r : Response) : value := to_json (data r).

Definition NextResponse_json (v : value) : Response := mkResponse 200 v.
Definition NextResponse_json_with (v : value) (status : nat) : Response :=
  mkResponse status v.

(** ** The route module *)

(** The initial [fallbackStore]; [boot] is [new Date().toISOString()] at
    module load. *)
Definition initial_fallbackStore (boot : string) : value :=
  VObject [("status", VString "idle");
           ("message", VString "Bot is initializing...");
           ("reelId", VNull);
           ("sender", VNull);
           ("updatedAt", VString boot)].

Definition KV_KEY : string := "bot_state".

(** [process.env.KV_REST_API_URL && process.env.KV_REST_API_TOKEN], as the
    condition of an [if]. *)
Definition kv_configured : M bool :=
  url ← process_env "KV_REST_API_URL";
  token ← process_env "KV_REST_API_TOKEN";
  mret (truthy (JS.and url token)).

Definition GET : M Response :=
  try_catch
    (configured ← kv_configured;
     if configured : bool then
       state ← kv_get KV_KEY;
       fallback ← read_fallbackStore;
       mret (NextResponse_json (JS.or state fallback))
     else
       fallback ← read_fallbackStore;
       mret (NextResponse_json fallback))
    (λ error,
       console_error "API Error:" error;;
       fallback ← read_fallbackStore;
       mret (NextResponse_json fallback)).

(** The object literal bound to [newState] in [POST], given the four
    properties read from the body and the time stamp. *)
Definition newState (status message reelId sender : value) (now : string) : value :=
  VObject [("status", JS.or status (VString "idle"));
           ("message", JS.or message (VString ""));
           ("reelId", JS.or reelId VNull);
           ("sender", JS.or sender VNull);
           ("updatedAt", VString now)].

(** [now] is the value of [new Date().toISOString()] during the call. *)
Definition POST (now : string) (request : Request) : M Response :=
  try_catch
    (body ← request_json request;
     status ← get_property body "status";
     message ← get_property body "message";
     reelId ← get_property body "reelId";
     sender ← get_property body "sender";
     let state := newState status message reelId sender now in
     configured ← kv_configured;
     (if configured : bool
      then kv_set KV_KEY state
      else write_fallbackStore state);;
     mret (NextResponse_json
             (VObject [("success", VBool true); ("state", state)])))
    (λ error,
       console_error "POST Error:" error;;
       mret (NextResponse_json_with
               (VObject [("success", VBool false);
                         ("error", VString "Invalid payload")])
               400)).

(** ** Sequences of requests *)

Inductive Call :=
| CallGET
| CallPOST (now : string) (request : Request).

Definition handle (c : Call) : M Response :=
  match c with
  | CallGET => GET
  | CallPOST now request => POST now request
  end.

(** ** Vocabulary of the statements *)

(** A credential is present when the variable is set to a non-empty
    string, which is when JavaScript takes it for true. *)
Definition present (name : string) (w : World) : Prop :=
  from_option (λ s, s ≠ "") False (env w !! name).

(** The condition both handlers test, as a function of the world. *)
Definition configured (w : World) : bool :=
  truthy (JS.and (from_option VString VUndefined (env w !! "KV_REST_API_URL"))
                 (from_option VString VUndefined (env w !! "KV_REST_API_TOKEN"))).

(** The record held by the backend the credentials select: the value
    under [KV_KEY] in the KV store ([null] when there is none), or
    [fallbackStore]. *)
Definition stored_record (w : World) : value :=
  if configured w then default VNull (kv_data w !! KV_KEY) else fallbackStore w.

(** The form in which the backend the credentials select keeps a record
    handed to it: the KV store keeps it as JSON, [fallbackStore] as it
    is. *)
Definition kept (w : World) (v : value) : value :=
  if configured w then to_json v else v.

(** A value that passes through JSON unchanged. *)
Definition stable (v : value) : Prop := to_json v = v.

(** The member [k] of a JSON body, if the body is an object that has
    one. *)
Definition member (k : string) (b : value) : option value :=
  match b with
  | VObject members => own_property k members
  | _ => None
  end.

(** [null] and [undefined] have no properties. *)
Definition nullish (v : value) : bool :=
  match v with
  | VUndefined | VNull => true
  | _ => false
  end.

(** The record [POST] builds from a body [b] at time [now]. *)
Definition state_for (b : value) (now : string) : value :=
  newState (lookup_property b "status") (lookup_property b "message")
           (lookup_property b "reelId") (lookup_property b "sender") now.

(** The record the specification describes for a body [b] posted at time
    [now], in the specification's words and without reference to [POST]:
    each of the four fields holds the value the body carries for it, or
    the default when the body carries none or a falsy one, and [updatedAt]
    holds the time of the write. *)
Definition posted_or_default (b : value) (k : string) (d : value) : value :=
  match member k b with
  | Some v => if truthy v then v else d
  | None => d
  end.

Definition described_record (b : value) (now : string) : value :=
  VObject [("status", posted_or_default b "status" (VString "idle"));
           ("message", posted_or_default b "message" (VString ""));
           ("reelId", posted_or_default b "reelId" VNull);
           ("sender", posted_or_default b "sender" VNull);
           ("updatedAt", VString now)].

(** The four fields a body may carry, each with the default of [POST]. *)
Definition defaults : list (string * value) :=
  [("status", VString "idle"); ("message", VString "");
   ("reelId", VNull); ("sender", VNull)].

(** A value a body carries for a field survives [POST] when it is truthy
    or is the field's default anyway. *)
Definition survives (v d : value) : Prop := truthy v = true ∨ v = d.

(** The five states of [BotState] in the dashboard. *)
Definition statuses : list string :=
  ["idle"; "downloading"; "uploading"; "completed"; "error"].

Definition is_status (v : value) : bool :=
  match v with
  | VString s => bool_decide (s ∈ statuses)
  | _ => false
  end.

Definition ok_response (state : value) : Response :=
  mkResponse 200 (VObject [("success", VBool true); ("state", state)]).

Definition invalid_payload : Response :=
  mkResponse 400 (VObject [("success", VBool false);
                           ("error", VString "Invalid payload")]).

(** The world right after the module is loaded at time [boot], in an
    environment [e], with a KV store nobody has written to. *)
Definition module_load (e : gmap string string) (up : bool) (boot : string) : World :=
  {| env := e; kv_up := up; kv_data := ∅; fallbackStore := initial_fallbackStore boot |}.

(** An environment with both KV credentials. *)
Definition kv_env : gmap string string :=
  <["KV_REST_API_URL" := "https://kv.example"]>
    (<["KV_REST_API_TOKEN" := "secret"]> ∅).

(** The example body of the specification, and variants of it. *)
Definition example_body : value :=
  VObject [("status", VString "uploading"); ("message", VString "Uploading reel");
           ("reelId", VString "abc123"); ("sender", VString "alice")].

Definition empty_reelId_body : value :=
  VObject [("status", VString "uploading"); ("message", VString "Uploading reel");
           ("reelId", VString ""); ("sender", VString "alice")].

Definition status_only_body : value := VObject [("status", VString "completed")].

Definition banana_body : value := VObject [("status", VString "banana")].

Definition forged_time_body : value :=
  VObject [("status", VString "completed"); ("updatedAt", VString "1970-01-01T00:00:00.000Z")].

Definition empty_status_body : value :=
  VObject [("status", VString ""); ("message", VString "done")].

(** ** Histories of the route *)

(** The KV service going down or coming back, which no request causes. *)
Definition with_kv_up (up : bool) (w : World) : World :=
  {| env := env w; kv_up := up; kv_data := kv_data w; fallbackStore := fallbackStore w |}.

(** The record a GET in world [w] hands out. *)
Definition served (w : World) : value :=
  match GET w with
  | (Return r, _, _) => data r
  | (Throw _, _, _) => VUndefined
  end.

(** The [state] of the last POST answered with 200 among the calls [cs],
    whose responses are [rs]. *)
Fixpoint last_write (cs : list Call) (rs : list Response) : option value :=
  match cs, rs with
  | c :: cs', r :: rs' =>
      match last_write cs' rs' with
      | Some st => Some st
      | None =>
          match c with
          | CallPOST _ _ => if (code r =? 200)%nat then member "state" (data r) else None
          | CallGET => None
          end
      end
  | _, _ => None
  end.

(** Each call comes with the state of the KV service at the time it is
    made: [under up m] runs [m] with the service answering ([true]) or
    down ([false]). *)
Definition under {A} (up : bool) (m : M A) : M A := λ w, m (with_kv_up up w).

Fixpoint serve_under (cs : list (bool * Call)) : M (list Response) :=
  match cs with
  | [] => mret []
  | (up, c) :: rest =>
      r ← under up (handle c);
      rs ← serve_under rest;
      mret (r :: rs)
  end.

(** The shape of every record the route keeps or hands out: the five
    members in this order, with a status that is truthy or [null], a
    message that is truthy, empty or [null], a reelId and a sender that are
    truthy or [null], and a string for [updatedAt]. *)
Definition record_ok (v : value) : Prop :=
  ∃ s m r d u,
    v = VObject [("status", s); ("message", m); ("reelId", r); ("sender", d);
                 ("updatedAt", VString u)] ∧
    survives s VNull ∧
    (survives m (VString "") ∨ m = VNull) ∧
    survives r VNull ∧ survives d VNull.

(** Both places a record can be read from hold a record of that shape. *)
Definition world_ok (w : World) : Prop :=
  record_ok (fallbackStore w) ∧
  ∀ v, kv_data w !! KV_KEY = Some v → record_ok v.

(** ** The dashboard: [web/src/app/page.tsx] *)

Module Dashboard.

(** [v === 's'] for a string literal ['s']. *)
Definition strict_eq_string (v : value) (s : string) : bool :=
  match v with
  | VString s' => String.eqb s' s
  | _ => false
  end.

(** [o?.k]. *)
Definition optional_property (o : value) (k : string) : value :=
  if nullish o then VUndefined else lookup_property o k.

(** The two state variables of the component, [useState(null)] and
    [useState(true)]. *)
Record Dash := mkDash { botState : value; loading : bool }.

Definition initial : Dash := {| botState := VNull; loading := true |}.

(** What [fetch('/api/progress')] comes back with: a rejected promise, or
    a response with its HTTP status and body. *)
Inductive FetchOutcome :=
| FetchRejected
| FetchResponse (status : nat) (payload : Body).

(** [res.ok]: the status is in the range 200 to 299. *)
Definition res_ok (status : nat) : bool := (200 <=? status)%nat && (status <=? 299)%nat.

Inductive FetchError := NetworkError | BodySyntaxError.

(** [fetchStatus], given what the fetch comes back with: the new state of
    the component and the lines written with [console.error]. *)
Definition fetchStatus (res : FetchOutcome) (d : Dash) : Dash * list (string * FetchError) :=
  let '(d1, log) :=
    match res with
    | FetchRejected => (d, [("Failed to fetch bot status", NetworkError)])
    | FetchResponse status payload =>
        if res_ok status then
          match payload with
          | Malformed => (d, [("Failed to fetch bot status", BodySyntaxError)])
          | Json data => ({| botState := data; loading := loading d |}, [])
          end
        else (d, [])
    end in
  ({| botState := botState d1; loading := false |}, log).

(** One poll after the other, as the interval timer makes them. *)
Fixpoint polls (rs : list FetchOutcome) (d : Dash) : Dash :=
  match rs with
  | [] => d
  | r :: rest => polls rest (fetchStatus r d).1
  end.

(** The data of the last response that was ok and parsed. *)
Fixpoint last_data (rs : list FetchOutcome) : option value :=
  match rs with
  | [] => None
  | r :: rest =>
      match last_data rest with
      | Some v => Some v
      | None =>
          match r with
          | FetchResponse status (Json v) => if res_ok status then Some v else None
          | _ => None
          end
      end
  end.

(** [getStatusColor]: the argument is whatever [botState?.status || 'idle']
    is at run time, and [switch] compares it to each label with [===]. *)
Definition getStatusColor (status : value) : string :=
  if strict_eq_string status "idle" then "text-slate-400"
  else if strict_eq_string status "downloading" then "text-blue-400"
  else if strict_eq_string status "uploading" then "text-purple-400"
  else if strict_eq_string status "completed" then "text-emerald-400"
  else if strict_eq_string status "error" then "text-rose-400"
  else "text-slate-400".

(** An icon element: the component and its [className]. *)
Record Icon := mkIcon { component : string; className : string }.

Definition getStatusIcon (status : value) : Icon :=
  if strict_eq_string status "idle" then mkIcon "Clock" "w-6 h-6 text-slate-400"
  else if strict_eq_string status "downloading"
       then mkIcon "Video" "w-6 h-6 text-blue-400 animate-pulse"
  else if strict_eq_string status "uploading"
       then mkIcon "Activity" "w-6 h-6 text-purple-400 animate-bounce"
  else if strict_eq_string status "completed"
       then mkIcon "CheckCircle2" "w-6 h-6 text-emerald-400"
  else if strict_eq_string status "error"
       then mkIcon "AlertCircle" "w-6 h-6 text-rose-400"
  else mkIcon "Clock" "w-6 h-6 text-slate-400".

(** The colour class of the background glow, the conditional chain on
    [botState?.status]. *)
Definition glowColor (status : value) : string :=
  if strict_eq_string status "uploading" then "bg-purple-500"
  else if strict_eq_string status "downloading" then "bg-blue-500"
  else if strict_eq_string status "completed" then "bg-emerald-500"
  else if strict_eq_string status "error" then "bg-rose-500"
  else "bg-slate-500".

(** The value of [x && <element showing x>] as a child of the card. *)
Inductive Child :=
| Falsy (v : value)
| Element (shown : value).

Definition and_element (x : value) : Child :=
  if truthy x then Element x else Falsy x.

(** A progress bar: its duration in seconds and its easing. *)
Record Bar := mkBar { duration : nat; ease : string }.

(** The parts of the card that depend on the state.  [lastUpdated] is the
    string handed to [new Date(..).toLocaleTimeString()], or [None] for the
    placeholder [--:--:--]. *)
Record Card := mkCard {
  key : value;
  glow : string;
  icon : Icon;
  color : string;
  message : value;
  senderBadge : Child;
  reelLabel : Child;
  lastUpdated : option value;
  uploadingBar : option Bar;
  downloadingBar : option Bar
}.

Inductive View :=
| Spinner
| ShowCard (c : Card).

(** What the component returns inside [<main>]. *)
Definition render (d : Dash) : View :=
  if loading d then Spinner
  else
    let botState := botState d in
    ShowCard
      {| key := JS.or (optional_property botState "updatedAt") (VString "empty");
         glow := glowColor (optional_property botState "status");
         icon := getStatusIcon (JS.or (optional_property botState "status") (VString "idle"));
         color := getStatusColor (JS.or (optional_property botState "status") (VString "idle"));
         message := JS.or (optional_property botState "message") (VString "Waiting for DMs...");
         senderBadge := and_element (optional_property botState "sender");
         reelLabel := and_element (optional_property botState "reelId");
         lastUpdated :=
           if truthy (optional_property botState "updatedAt")
           then Some (lookup_property botState "updatedAt")
           else None;
         uploadingBar :=
           if strict_eq_string (optional_property botState "status") "uploading"
           then Some (mkBar 15 "linear") else None;
         downloadingBar :=
           if strict_eq_string (optional_property botState "status") "downloading"
           then Some (mkBar 5 "easeOut") else None |}.


End Dashboard.

(** ** Values through JSON *)

Lemma value_nested_ind (P : value → Prop) :
  P VUndefined → P VNull → (∀ b, P (VBool b)) → (∀ n, P (VNumber n)) →
  (∀ s, P (VString s)) →
  (∀ items, Forall P items → P (VArray items)) →
  (∀ members, Forall (λ m, P m.2) members → P (VObject members)) →
  ∀ v, P v.
Proof.
  intros Hu Hn Hb Hnum Hs Harr Hobj. fix IH 1.
  intros [| |b|n|s|items|members].
  - exact Hu.
  - exact Hn.
  - apply Hb.
  - apply Hnum.
  - apply Hs.
  - apply Harr. induction items as [|x items IHitems]; constructor.
    + apply IH.
    + exact IHitems.
  - apply Hobj. induction members as [|[k x] members IHmembers]; constructor.
    + apply IH.
    + exact IHmembers.
Qed.

Lemma to_json_undefined (v : value) : to_json v = VUndefined → v = VUndefined.
Proof. by destruct v as [| | |[|]| | |]. Qed.

Lemma json_members_cons (f : value → value) (k : string) (x : value)
    (ms : list (string * value)) :
  x ≠ VUndefined → json_members f ((k, x) :: ms) = (k, f x) :: json_members f ms.
Proof. by destruct x. Qed.

Lemma undefined_or_not (v : value) : v = VUndefined ∨ v ≠ VUndefined.
Proof. destruct v; auto. Qed.

Lemma json_item_defined (x : value) :
  x ≠ VUndefined →
  match x with VUndefined => VNull | _ => to_json x end = to_json x.
Proof. by destruct x. Qed.

Lemma to_json_idempotent (v : value) : to_json (to_json v) = to_json v.
Proof.
  induction v as [| | |[|]| |items IH|members IH] using value_nested_ind;
    try reflexivity; simpl; f_equal.
  - induction IH as [|x items Hx _ IHitems]; [done|]. simpl. f_equal; [|done].
    destruct (undefined_or_not x) as [->|Hne]; [done|].
    assert (to_json x ≠ VUndefined) by (intros ?%to_json_undefined; done).
    by rewrite (json_item_defined x), (json_item_defined (to_json x)).
  - induction IH as [|[k x] members Hx _ IHmembers]; [done|]. simpl in Hx.
    destruct (undefined_or_not x) as [->|Hne]; [done|].
    assert (to_json x ≠ VUndefined) by (intros ?%to_json_undefined; done).
    rewrite !json_members_cons by done. by rewrite Hx, IHmembers.
Qed.

(** A falsy value passes through JSON unchanged; a truthy one stays truthy
    or, when it is an infinity, becomes [null]. *)
Lemma falsy_stable (v : value) : truthy v = false → to_json v = v.
Proof. by destruct v as [| | |[|]| | |]. Qed.

Lemma truthy_to_json (v : value) :
  truthy v = true → truthy (to_json v) = true ∨ to_json v = VNull.
Proof. destruct v as [| | |[|]| | |]; simpl; auto. Qed.

Lemma truthy_of_to_json (v : value) : truthy (to_json v) = true → truthy v = true.
Proof. by destruct v as [| | |[|]| | |]. Qed.

Lemma or_not_undefined (v d : value) : d ≠ VUndefined → JS.or v d ≠ VUndefined.
Proof. unfold JS.or. intros Hd. destruct (truthy v) eqn:Hv; [by intros -> | done]. Qed.

Lemma to_json_record (s m r d : value) (u : string) :
  s ≠ VUndefined → m ≠ VUndefined → r ≠ VUndefined → d ≠ VUndefined →
  to_json (VObject [("status", s); ("message", m); ("reelId", r); ("sender", d);
                    ("updatedAt", VString u)]) =
  VObject [("status", to_json s); ("message", to_json m); ("reelId", to_json r);
           ("sender", to_json d); ("updatedAt", VString u)].
Proof.
  intros.
  transitivity
    (VObject (json_members to_json
                [("status", s); ("message", m); ("reelId", r); ("sender", d);
                 ("updatedAt", VString u)])); [reflexivity|].
  rewrite !json_members_cons by done. reflexivity.
Qed.

Lemma to_json_state_for (b : value) (now : string) :
  to_json (state_for b now) =
  VObject [("status", to_json (JS.or (lookup_property b "status") (VString "idle")));
           ("message", to_json (JS.or (lookup_property b "message") (VString "")));
           ("reelId", to_json (JS.or (lookup_property b "reelId") VNull));
           ("sender", to_json (JS.or (lookup_property b "sender") VNull));
           ("updatedAt", VString now)].
Proof. apply to_json_record; by apply or_not_undefined. Qed.

Lemma to_json_kept (w : World) (v : value) : to_json (kept w v) = to_json v.
Proof. unfold kept. destruct (configured w); [apply to_json_idempotent | done]. Qed.

(** ** What one call does *)

Lemma kv_configured_run (w : World) :
  kv_configured w = (Return (configured w), w, []).
Proof. reflexivity. Qed.

Lemma GET_run (w : World) :
  GET w =
  if configured w then
    if kv_up w
    then (Return (NextResponse_json
                    (JS.or (default VNull (kv_data w !! KV_KEY)) (fallbackStore w))),
          w, [KvGet KV_KEY])
    else (Return (NextResponse_json (fallbackStore w)), w,
          [KvGet KV_KEY; ConsoleError "API Error:" KvError])
  else (Return (NextResponse_json (fallbackStore w)), w, []).
Proof.
  unfold GET, try_catch, mbind, M_bind. rewrite kv_configured_run.
  destruct (configured w); [|reflexivity].
  unfold kv_get. destruct (kv_up w); reflexivity.
Qed.

Lemma POST_malformed (now : string) (w : World) :
  POST now (mkRequest Malformed) w =
  (Return invalid_payload, w, [ConsoleError "POST Error:" SyntaxError]).
Proof. reflexivity. Qed.

Lemma POST_nullish (now : string) (b : value) (w : World) :
  nullish b = true →
  POST now (mkRequest (Json b)) w =
  (Return invalid_payload, w, [ConsoleError "POST Error:" TypeError]).
Proof. destruct b; intros H; try discriminate H; reflexivity. Qed.

Lemma POST_run (now : string) (b : value) (w : World) :
  nullish b = false →
  POST now (mkRequest (Json b)) w =
  if configured w then
    if kv_up w
    then (Return (ok_response (state_for b now)),
          with_kv_data (<[KV_KEY := to_json (state_for b now)]> (kv_data w)) w,
          [KvSet KV_KEY (state_for b now)])
    else (Return invalid_payload, w,
          [KvSet KV_KEY (state_for b now); ConsoleError "POST Error:" KvError])
  else (Return (ok_response (state_for b now)),
        with_fallbackStore (state_for b now) w, []).
Proof.
  intros Hb.
  assert (Hget : ∀ k, get_property b k = mret (lookup_property b k))
    by (intros k; destruct b; try discriminate Hb; reflexivity).
  unfold POST, try_catch, mbind, M_bind, request_json; simpl.
  rewrite !Hget. unfold mret, M_ret, configured; simpl.
  destruct (truthy (JS.and _ _)); [|reflexivity].
  unfold kv_set. destruct (kv_up w); reflexivity.
Qed.

(** Every call returns: the handlers catch whatever is thrown. *)
Lemma GET_returns (w : World) : ∃ r t, GET w = (Return r, w, t).
Proof.
  rewrite GET_run. destruct (configured w), (kv_up w); eauto.
Qed.

Lemma POST_returns (now : string) (request : Request) (w : World) :
  ∃ r w' t, POST now request w = (Return r, w', t).
Proof.
  destruct request as [[|b]].
  - rewrite POST_malformed. eauto.
  - destruct (nullish b) eqn:Hb.
    + rewrite POST_nullish by done. eauto.
    + rewrite POST_run by done. destruct (configured w), (kv_up w); eauto.
Qed.

(** A call answered with 400 leaves the world as it was. *)
Lemma POST_400_frame (now : string) (request : Request) (w w' : World) r t :
  POST now request w = (Return r, w', t) → code r = 400 → w' = w ∧ r = invalid_payload.
Proof.
  destruct request as [[|b]].
  - rewrite POST_malformed. intros [= <- <- <-]. done.
  - destruct (nullish b) eqn:Hb.
    + rewrite POST_nullish by done. intros [= <- <- <-]. done.
    + rewrite POST_run by done.
      destruct (configured w), (kv_up w); intros [= <- <- <-]; done.
Qed.

(** A call answered with 200 had a body with properties, and left the
    record built from that body in the selected backend. *)
Lemma POST_200_stored (now : string) (request : Request) (w w' : World) r t :
  POST now request w = (Return r, w', t) → code r = 200 →
  ∃ b, body request = Json b ∧ nullish b = false ∧
       r = ok_response (state_for b now) ∧
       stored_record w' = kept w (state_for b now).
Proof.
  destruct request as [[|b]].
  - rewrite POST_malformed. intros [= <- <- <-]. done.
  - destruct (nullish b) eqn:Hb.
    + rewrite POST_nullish by done. intros [= <- <- <-]. done.
    + rewrite POST_run by done. intros Hrun Hcode.
      exists b. split; [done|]. split; [done|].
      unfold stored_record, kept.
      destruct (configured w) eqn:Hc; [destruct (kv_up w)|];
        injection Hrun as <- <- <-; try done.
      * split; [done|].
        change (configured (with_kv_data _ w)) with (configured w). rewrite Hc.
        simpl. by rewrite lookup_insert_eq.
      * split; [done|].
        change (configured (with_fallbackStore _ w)) with (configured w).
        by rewrite Hc.
Qed.

(** ** Member lists *)

Lemma own_property_app (k : string) (ms1 ms2 : list (string * value)) :
  own_property k (ms1 ++ ms2) =
  match own_property k ms2 with
  | Some v => Some v
  | None => own_property k ms1
  end.
Proof.
  induction ms1 as [|[k' v] ms1 IH]; simpl.
  - by destruct (own_property k ms2).
  - rewrite IH. by destruct (own_property k ms2).
Qed.

Lemma own_property_middle (k k' : string) (v : value) (ms1 ms2 : list (string * value)) :
  k ≠ k' →
  own_property k (ms1 ++ (k', v) :: ms2) = own_property k (ms1 ++ ms2).
Proof.
  intros Hne. rewrite !own_property_app. simpl.
  destruct (own_property k ms2); [done|].
  by rewrite (proj2 (String.eqb_neq k k') Hne).
Qed.

Lemma own_property_without_eq (k : string) (ms : list (string * value)) :
  own_property k (without k ms) = None.
Proof.
  unfold without. induction ms as [|[k' v] ms IH]; [done|].
  rewrite filter_cons. case_decide as Hk; simpl in *; [|done].
  rewrite IH. by rewrite (proj2 (String.eqb_neq k k')).
Qed.

Lemma own_property_without_ne (k k' : string) (ms : list (string * value)) :
  k ≠ k' → own_property k (without k' ms) = own_property k ms.
Proof.
  intros Hne. unfold without. induction ms as [|[k'' v] ms IH]; [done|].
  rewrite filter_cons. case_decide as Hk; simpl in *.
  - by rewrite IH.
  - rewrite IH. subst k''.
    rewrite (proj2 (String.eqb_neq k k') Hne).
    by destruct (own_property k ms).
Qed.

(** [POST] sees of a body only whether it has properties and what its four
    fields are. *)
Lemma POST_ext (now : string) (b1 b2 : value) (w : World) :
  nullish b1 = nullish b2 →
  (∀ k d, (k, d) ∈ defaults →
          JS.or (lookup_property b1 k) d = JS.or (lookup_property b2 k) d) →
  POST now (mkRequest (Json b1)) w = POST now (mkRequest (Json b2)) w.
Proof.
  intros Hn Hk. destruct (nullish b2) eqn:Hb2.
  - by rewrite !POST_nullish.
  - rewrite !POST_run by done.
    assert (state_for b1 now = state_for b2 now) as ->; [|done].
    unfold state_for, newState.
    rewrite (Hk "status" (VString "idle")), (Hk "message" (VString "")),
      (Hk "reelId" VNull), (Hk "sender" VNull); [done|..];
      unfold defaults; set_solver.
Qed.

Lemma lookup_property_member (b : value) (k : string) :
  lookup_property b k = default VUndefined (member k b).
Proof. by destruct b. Qed.

(** The fields of the record [POST] builds. *)
Lemma member_state_for (b : value) (now : string) (k : string) (d : value) :
  (k, d) ∈ defaults →
  member k (state_for b now) = Some (JS.or (lookup_property b k) d).
Proof.
  unfold defaults. rewrite !elem_of_cons, elem_of_nil.
  intros [[= -> ->]|[[= -> ->]|[[= -> ->]|[[= -> ->]|[]]]]]; reflexivity.
Qed.

Lemma member_state_for_updatedAt (b : value) (now : string) :
  member "updatedAt" (state_for b now) = Some (VString now).
Proof. reflexivity. Qed.

Lemma kept_falsy (w : World) (v : value) : truthy v = false → kept w v = v.
Proof. unfold kept. intros Hv. destruct (configured w); [by apply falsy_stable | done]. Qed.

Lemma kept_default (w : World) (k : string) (d : value) :
  (k, d) ∈ defaults → kept w d = d.
Proof.
  unfold defaults. rewrite !elem_of_cons, elem_of_nil.
  intros [[= _ ->]|[[= _ ->]|[[= _ ->]|[[= _ ->]|[]]]]];
    unfold kept; by destruct (configured w).
Qed.

(** The fields of the record as the backend keeps it. *)
Lemma member_kept_state_for (w : World) (b : value) (now : string) (k : string) (d : value) :
  (k, d) ∈ defaults →
  member k (kept w (state_for b now)) = Some (kept w (JS.or (lookup_property b k) d)).
Proof.
  intros Hk. unfold kept. destruct (configured w); [|by apply member_state_for].
  rewrite to_json_state_for. revert Hk.
  unfold defaults. rewrite !elem_of_cons, elem_of_nil.
  intros [[= -> ->]|[[= -> ->]|[[= -> ->]|[[= -> ->]|[]]]]]; reflexivity.
Qed.

Lemma member_kept_updatedAt (w : World) (b : value) (now : string) :
  member "updatedAt" (kept w (state_for b now)) = Some (VString now).
Proof.
  unfold kept. destruct (configured w); [|done]. by rewrite to_json_state_for.
Qed.

(** The record [POST] builds is the record the specification describes. *)
Lemma state_for_described (b : value) (now : string) :
  state_for b now = described_record b now.
Proof.
  unfold state_for, described_record, newState, posted_or_default, JS.or.
  rewrite !lookup_property_member.
  by destruct (member "status" b), (member "message" b),
              (member "reelId" b), (member "sender" b).
Qed.

Lemma configured_present (w : World) :
  configured w = true ↔ present "KV_REST_API_URL" w ∧ present "KV_REST_API_TOKEN" w.
Proof.
  unfold configured, present, JS.and.
  destruct (env w !! "KV_REST_API_URL") as [u|],
           (env w !! "KV_REST_API_TOKEN") as [k|]; simpl;
    try (split; [discriminate | intros [? ?]; contradiction]).
  - destruct (String.eqb_spec u "") as [->|Hu]; simpl.
    + split; [discriminate | intros [? ?]; contradiction].
    + destruct (String.eqb_spec k "") as [->|Hk]; simpl.
      * split; [discriminate | intros [? ?]; contradiction].
      * split; [intros _; by split | reflexivity].
  - destruct (String.eqb_spec u "") as [->|Hu]; simpl;
      (split; [discriminate | intros [? ?]; contradiction]).
Qed.

(** ** Partial bodies *)

(** C1: when a POST whose body leaves out some of the four fields is
    answered with 200, the stored record is the record the specification
    describes for that body and the time of the call, in the form the
    backend keeps it, and nothing else: every field the body leaves out
    holds its default, every field the body carries with a truthy value
    holds that value, and the same request stores the same record whatever
    record was stored before. *)
Theorem POST_partial_replaces_wholesale (now : string) (b : value) (w w' : World) r t :
  POST now (mkRequest (Json b)) w = (Return r, w', t) →
  code r = 200 →
  stored_record w' = kept w (described_record b now) ∧
  (∀ k d, (k, d) ∈ defaults → member k b = None →
          member k (stored_record w') = Some d) ∧
  (∀ k d v, (k, d) ∈ defaults → member k b = Some v → truthy v = true →
            member k (stored_record w') = Some (kept w v)) ∧
  (∀ v v' r2 t2, POST now (mkRequest (Json b)) v = (Return r2, v', t2) →
                 code r2 = 200 →
                 to_json (stored_record v') = to_json (stored_record w') ∧
                 (configured v = configured w → stored_record v' = stored_record w')).
Proof.
  intros Hrun Hcode.
  destruct (POST_200_stored _ _ _ _ _ _ Hrun Hcode) as (b0 & [= <-] & _ & _ & Hst).
  split; [by rewrite Hst, state_for_described|]. split; [|split].
  - intros k d Hk Hnone. rewrite Hst, (member_kept_state_for _ _ _ _ _ Hk).
    rewrite lookup_property_member, Hnone. simpl.
    by rewrite (kept_default _ _ _ Hk).
  - intros k d v Hk Hsome Hv. rewrite Hst, (member_kept_state_for _ _ _ _ _ Hk).
    rewrite lookup_property_member, Hsome. simpl. unfold JS.or. by rewrite Hv.
  - intros v v' r2 t2 Hrun2 Hcode2.
    destruct (POST_200_stored _ _ _ _ _ _ Hrun2 Hcode2) as (b0 & [= <-] & _ & _ & Hst2).
    rewrite Hst, Hst2. split; [by rewrite !to_json_kept|].
    unfold kept. by intros ->.
Qed.

Lemma POST_partial_replaces_wholesale_witness :
  member "sender" (stored_record
    (with_fallbackStore (state_for status_only_body "2026-01-01T00:00:00.000Z")
       (module_load ∅ true "2025-12-31T00:00:00.000Z"))) = Some VNull.
Proof.
  refine (proj1 (proj2 (POST_partial_replaces_wholesale
            "2026-01-01T00:00:00.000Z" status_only_body
            (module_load ∅ true "2025-12-31T00:00:00.000Z") _ _ [] _ _))
          "sender" VNull _ _).
  - reflexivity.
  - reflexivity.
  - unfold defaults. rewrite !elem_of_cons. right; right; right; left. reflexivity.
  - reflexivity.
Defined.

(** C10: a field that the body carries with a falsy value (empty string,
    [false], zero or [null]) is treated as if it were left out: the call
    does exactly what it does on the body without that field, and when it
    is answered with 200 the stored record holds the field's default. *)
Theorem POST_falsy_field_is_omitted
    (now : string) (ms : list (string * value)) (k : string) (d v : value) (w : World) :
  (k, d) ∈ defaults →
  own_property k ms = Some v →
  truthy v = false →
  POST now (mkRequest (Json (VObject ms))) w =
    POST now (mkRequest (Json (VObject (without k ms)))) w ∧
  (∀ r w' t, POST now (mkRequest (Json (VObject ms))) w = (Return r, w', t) →
             code r = 200 → member k (stored_record w') = Some d).
Proof.
  intros Hk Hv Hfalsy. split.
  - apply POST_ext; [done|]. intros k' d' Hk'. simpl.
    destruct (decide (k' = k)) as [->|Hne].
    + rewrite Hv, own_property_without_eq. simpl.
      unfold JS.or. rewrite Hfalsy. reflexivity.
    + by rewrite own_property_without_ne.
  - intros r w' t Hrun Hcode.
    destruct (POST_200_stored _ _ _ _ _ _ Hrun Hcode) as (b0 & [= <-] & _ & _ & Hst).
    rewrite Hst, (member_kept_state_for _ _ _ _ _ Hk). simpl. rewrite Hv. simpl.
    unfold JS.or. rewrite Hfalsy. by rewrite (kept_default _ _ _ Hk).
Qed.

Lemma POST_falsy_field_is_omitted_witness :
  POST "2026-01-01T00:00:00.000Z" (mkRequest (Json empty_status_body))
       (module_load ∅ true "2025-12-31T00:00:00.000Z") =
  POST "2026-01-01T00:00:00.000Z"
       (mkRequest (Json (VObject (without "status" [("status", VString ""); ("message", VString "done")]))))
       (module_load ∅ true "2025-12-31T00:00:00.000Z").
Proof.
  refine (proj1 (POST_falsy_field_is_omitted
            "2026-01-01T00:00:00.000Z" [("status", VString ""); ("message", VString "done")]
            "status" (VString "idle") (VString "")
            (module_load ∅ true "2025-12-31T00:00:00.000Z") _ _ _)).
  - unfold defaults. rewrite !elem_of_cons. left. reflexivity.
  - reflexivity.
  - reflexivity.
Defined.

(** ** The time stamp *)

(** C9: an [updatedAt] member in the body changes nothing, wherever it
    stands and whatever it holds: the call does exactly what it does on the
    body without it.  When a POST is answered with 200, the [updatedAt] of
    the stored record is the time of the call. *)
Theorem POST_stamps_updatedAt
    (now : string) (request : Request) (w w' : World) r t :
  POST now request w = (Return r, w', t) →
  code r = 200 →
  member "updatedAt" (stored_record w') = Some (VString now) ∧
  (∀ ms1 ms2 v, body request = Json (VObject (ms1 ++ ("updatedAt", v) :: ms2)) →
     POST now (mkRequest (Json (VObject (ms1 ++ ms2)))) w = (Return r, w', t)).
Proof.
  intros Hrun Hcode. split.
  - destruct (POST_200_stored _ _ _ _ _ _ Hrun Hcode) as (b & _ & _ & _ & ->).
    apply member_kept_updatedAt.
  - intros ms1 ms2 v Hbody. rewrite <- Hrun.
    destruct request as [rb]. simpl in Hbody. subst rb.
    apply POST_ext; [done|]. intros k d Hk. simpl.
    rewrite own_property_middle; [done|].
    revert Hk. unfold defaults. rewrite !elem_of_cons, elem_of_nil.
    intros [[= -> _]|[[= -> _]|[[= -> _]|[[= -> _]|[]]]]]; discriminate.
Qed.

Lemma POST_stamps_updatedAt_witness :
  member "updatedAt" (stored_record
    (with_fallbackStore (state_for forged_time_body "2026-01-01T00:00:00.000Z")
       (module_load ∅ true "2025-12-31T00:00:00.000Z")))
  = Some (VString "2026-01-01T00:00:00.000Z").
Proof.
  refine (proj1 (POST_stamps_updatedAt
            "2026-01-01T00:00:00.000Z" (mkRequest (Json forged_time_body))
            (module_load ∅ true "2025-12-31T00:00:00.000Z") _ _ [] _ _)).
  - reflexivity.
  - reflexivity.
Defined.

(** ** Round trip *)

Lemma or_survives (v d : value) : survives v d → JS.or v d = v.
Proof. unfold JS.or. intros [->| ->]; [done|]. by destruct (truthy d). Qed.

(** C2, as amended: when a POST whose body carries all four fields, each
    with a value that is truthy or equal to the field's default and that
    passes through JSON unchanged, is answered with 200, then a GET made
    afterwards, with no POST in between and with the KV service, if its
    credentials are configured, answering at that time, returns 200 with
    the record made of the four posted values and an [updatedAt] equal to
    the time of the POST; this is also the body the client reads. *)
Theorem POST_then_GET_roundtrip
    (now : string) (b st msg rid snd : value) (w w1 : World) r1 t1 (up : bool) :
  member "status" b = Some st →
  member "message" b = Some msg →
  member "reelId" b = Some rid →
  member "sender" b = Some snd →
  survives st (VString "idle") →
  survives msg (VString "") →
  survives rid VNull →
  survives snd VNull →
  stable st → stable msg → stable rid → stable snd →
  POST now (mkRequest (Json b)) w = (Return r1, w1, t1) →
  code r1 = 200 →
  configured w = false ∨ up = true →
  ∃ r2 t2,
    GET (with_kv_up up w1) = (Return r2, with_kv_up up w1, t2) ∧
    code r2 = 200 ∧
    data r2 = VObject [("status", st); ("message", msg); ("reelId", rid);
                       ("sender", snd); ("updatedAt", VString now)] ∧
    wire r2 = VObject [("status", st); ("message", msg); ("reelId", rid);
                       ("sender", snd); ("updatedAt", VString now)].
Proof.
  intros Hst Hmsg Hrid Hsnd Sst Smsg Srid Ssnd Jst Jmsg Jrid Jsnd Hrun Hcode Hup.
  assert (Hb : nullish b = false) by (destruct b; done).
  assert (Hstate : state_for b now =
            VObject [("status", st); ("message", msg); ("reelId", rid);
                     ("sender", snd); ("updatedAt", VString now)]).
  { unfold state_for, newState. rewrite !lookup_property_member.
    rewrite Hst, Hmsg, Hrid, Hsnd. simpl.
    by rewrite !or_survives. }
  assert (Hjson : to_json (state_for b now) = state_for b now).
  { rewrite to_json_state_for, Hstate. rewrite !lookup_property_member.
    rewrite Hst, Hmsg, Hrid, Hsnd. simpl.
    rewrite !or_survives by done. unfold stable in *. congruence. }
  assert (Hor : ∀ x, JS.or (state_for b now) x = state_for b now) by reflexivity.
  rewrite POST_run in Hrun by done. rewrite Hjson in Hrun. rewrite GET_run.
  change (configured (with_kv_up up w1)) with (configured w1).
  change (kv_up (with_kv_up up w1)) with up.
  change (fallbackStore (with_kv_up up w1)) with (fallbackStore w1).
  change (kv_data (with_kv_up up w1)) with (kv_data w1).
  destruct (configured w) eqn:Hc; [destruct (kv_up w) eqn:Hkv|];
    injection Hrun as <- <- <-; try discriminate Hcode.
  - destruct Hup as [Hf| ->]; [discriminate Hf|].
    change (configured (with_kv_data _ w)) with (configured w).
    rewrite Hc. cbn [kv_data with_kv_data fallbackStore].
    rewrite lookup_insert_eq. cbn [default from_option id]. rewrite Hor.
    do 2 eexists. split; [reflexivity|]. split; [reflexivity|].
    unfold wire, NextResponse_json. cbn [data]. by rewrite Hjson, Hstate.
  - change (configured (with_fallbackStore _ w)) with (configured w).
    rewrite Hc. cbn [fallbackStore with_fallbackStore].
    do 2 eexists. split; [reflexivity|]. split; [reflexivity|].
    unfold wire, NextResponse_json. cbn [data]. by rewrite Hjson, Hstate.
Qed.

Lemma POST_then_GET_roundtrip_witness :
  ∃ r2 t2,
    GET (with_kv_up true
           (with_kv_data (<[KV_KEY := to_json (state_for example_body "2026-01-01T00:00:00.000Z")]> ∅)
              (module_load kv_env true "2025-12-31T00:00:00.000Z"))) =
      (Return r2,
       with_kv_up true
         (with_kv_data (<[KV_KEY := to_json (state_for example_body "2026-01-01T00:00:00.000Z")]> ∅)
            (module_load kv_env true "2025-12-31T00:00:00.000Z")),
       t2) ∧
    code r2 = 200 ∧
    data r2 = VObject [("status", VString "uploading");
                       ("message", VString "Uploading reel");
                       ("reelId", VString "abc123");
                       ("sender", VString "alice");
                       ("updatedAt", VString "2026-01-01T00:00:00.000Z")] ∧
    wire r2 = VObject [("status", VString "uploading");
                       ("message", VString "Uploading reel");
                       ("reelId", VString "abc123");
                       ("sender", VString "alice");
                       ("updatedAt", VString "2026-01-01T00:00:00.000Z")].
Proof.
  refine (POST_then_GET_roundtrip
            "2026-01-01T00:00:00.000Z" example_body
            (VString "uploading") (VString "Uploading reel")
            (VString "abc123") (VString "alice")
            (module_load kv_env true "2025-12-31T00:00:00.000Z") _ _
            [KvSet KV_KEY (state_for example_body "2026-01-01T00:00:00.000Z")] true
            _ _ _ _ _ _ _ _ _ _ _ _ _ _ _);
    try reflexivity; try (left; reflexivity).
  right. reflexivity.
Defined.

(** C2 fails as stated: a body whose [reelId] is the empty string is
    stored with [reelId] [null], and that is what the next GET returns. *)
Lemma POST_then_GET_empty_reelId :
  ∃ r1 w1 t1 r2 w2 t2,
    POST "2026-01-01T00:00:00.000Z" (mkRequest (Json empty_reelId_body))
         (module_load ∅ true "2025-12-31T00:00:00.000Z") = (Return r1, w1, t1) ∧
    code r1 = 200 ∧
    GET w1 = (Return r2, w2, t2) ∧
    member "reelId" empty_reelId_body = Some (VString "") ∧
    member "reelId" (data r2) = Some VNull.
Proof.
  do 6 eexists. split; [reflexivity|]. split; [reflexivity|].
  split; [reflexivity|]. split; reflexivity.
Qed.

(** ** Status codes *)

(** C3, as amended: a POST whose body does not parse, or parses to [null],
    is answered with 400 and [{success:false, error:"Invalid payload"}] and
    leaves the world as it was; a POST whose body parses to any other JSON
    value is answered with 200 and [{success:true, state}], [state] being
    the record it stored ([fallbackStore] holds it as it is, the KV store
    as JSON), when the KV store is not configured or answers the write. *)
Theorem POST_status_codes (now : string) (request : Request) (w : World) :
  (body request = Malformed ∨ body request = Json VNull →
   ∃ t, POST now request w = (Return invalid_payload, w, t)) ∧
  (∀ b, body request = Json b → nullish b = false →
        configured w = false ∨ kv_up w = true →
        ∃ w' t, POST now request w = (Return (ok_response (state_for b now)), w', t) ∧
                stored_record w' = kept w (state_for b now)).
Proof.
  destruct request as [rb]. simpl. split.
  - intros [-> | ->]; [rewrite POST_malformed | rewrite POST_nullish by done];
      by eexists.
  - intros b -> Hb Hback.
    destruct (POST_returns now (mkRequest (Json b)) w) as (r & w' & t & Hrun).
    assert (r = ok_response (state_for b now)) as ->.
    { rewrite POST_run in Hrun by done.
      destruct (configured w), (kv_up w), Hback;
        try discriminate; by injection Hrun as <- _ _. }
    exists w', t. split; [done|].
    by destruct (POST_200_stored _ _ _ _ _ _ Hrun eq_refl) as (b0 & [= <-] & _ & _ & Hst).
Qed.

Lemma POST_status_codes_witness :
  ∃ w' t,
    POST "2026-01-01T00:00:00.000Z" (mkRequest (Json status_only_body))
         (module_load kv_env true "2025-12-31T00:00:00.000Z") =
      (Return (ok_response (state_for status_only_body "2026-01-01T00:00:00.000Z")), w', t) ∧
    stored_record w' =
      kept (module_load kv_env true "2025-12-31T00:00:00.000Z")
           (state_for status_only_body "2026-01-01T00:00:00.000Z").
Proof.
  refine (proj2 (POST_status_codes
            "2026-01-01T00:00:00.000Z" (mkRequest (Json status_only_body))
            (module_load kv_env true "2025-12-31T00:00:00.000Z"))
          status_only_body _ _ _).
  - reflexivity.
  - reflexivity.
  - right. reflexivity.
Defined.

(** C3 fails as stated: the body [null] parses, and the POST is answered
    with 400. *)
Lemma POST_null_body_is_rejected :
  POST "2026-01-01T00:00:00.000Z" (mkRequest (Json VNull))
       (module_load ∅ true "2025-12-31T00:00:00.000Z") =
    (Return invalid_payload, module_load ∅ true "2025-12-31T00:00:00.000Z",
     [ConsoleError "POST Error:" TypeError]) ∧
  code invalid_payload = 400.
Proof. split; reflexivity. Qed.

(** ** The status field *)

Lemma is_status_to_json (v : value) : is_status (to_json v) = is_status v.
Proof. by destruct v as [| | |[|]| | |]. Qed.

Lemma is_status_kept (w : World) (v : value) : is_status (kept w v) = is_status v.
Proof. unfold kept. destruct (configured w); [apply is_status_to_json | done]. Qed.

(** C5, as amended: the initial record has status [idle]; a POST answered
    with 200 stores [idle] as status when the body's status is missing or
    falsy, and otherwise the body's status value, whatever it is, in the
    form the backend keeps it: as it is in [fallbackStore], as JSON in the
    KV store, where a string stays as it is.  So the stored status is one
    of the five states exactly when the posted status is missing, falsy or
    one of the five. *)
Theorem stored_status_follows_body
    (boot now : string) (b : value) (w w' : World) r t :
  POST now (mkRequest (Json b)) w = (Return r, w', t) →
  code r = 200 →
  member "status" (initial_fallbackStore boot) = Some (VString "idle") ∧
  is_status (VString "idle") = true ∧
  ∃ s, member "status" (stored_record w') = Some s ∧
       s = kept w (JS.or (lookup_property b "status") (VString "idle")) ∧
       (truthy (lookup_property b "status") = false → s = VString "idle") ∧
       (∀ str, lookup_property b "status" = VString str → str ≠ "" → s = VString str) ∧
       (is_status s = true ↔
          truthy (lookup_property b "status") = false ∨
          is_status (lookup_property b "status") = true).
Proof.
  intros Hrun Hcode. split; [reflexivity|]. split; [reflexivity|].
  destruct (POST_200_stored _ _ _ _ _ _ Hrun Hcode) as (b0 & [= <-] & _ & _ & ->).
  eexists. split.
  { apply (member_kept_state_for w b now "status" (VString "idle")).
    unfold defaults. set_solver. }
  split; [reflexivity|]. split; [|split].
  - intros Hf. unfold JS.or. rewrite Hf. unfold kept. by destruct (configured w).
  - intros str -> Hne. unfold JS.or. simpl.
    rewrite (proj2 (String.eqb_neq str "") Hne). simpl.
    unfold kept. by destruct (configured w).
  - rewrite is_status_kept.
    unfold JS.or. destruct (truthy (lookup_property b "status")) eqn:Ht.
    + split; [by right | by intros [?|?]].
    + split; [by left | reflexivity].
Qed.

Lemma stored_status_follows_body_witness :
  ∃ s, member "status" (stored_record
         (with_fallbackStore (state_for status_only_body "2026-01-01T00:00:00.000Z")
            (module_load ∅ true "2025-12-31T00:00:00.000Z"))) = Some s ∧
       s = kept (module_load ∅ true "2025-12-31T00:00:00.000Z")
             (JS.or (lookup_property status_only_body "status") (VString "idle")) ∧
       (truthy (lookup_property status_only_body "status") = false → s = VString "idle") ∧
       (∀ str, lookup_property status_only_body "status" = VString str → str ≠ "" →
               s = VString str) ∧
       (is_status s = true ↔
          truthy (lookup_property status_only_body "status") = false ∨
          is_status (lookup_property status_only_body "status") = true).
Proof.
  refine (proj2 (proj2 (stored_status_follows_body
            "2025-12-31T00:00:00.000Z" "2026-01-01T00:00:00.000Z" status_only_body
            (module_load ∅ true "2025-12-31T00:00:00.000Z") _ _ [] _ _))).
  - reflexivity.
  - reflexivity.
Defined.

(** C5 fails as stated: a POST with status [banana] is answered with 200
    and stores that status, which is none of the five. *)
Lemma POST_stores_unknown_status :
  ∃ r w' t,
    POST "2026-01-01T00:00:00.000Z" (mkRequest (Json banana_body))
         (module_load ∅ true "2025-12-31T00:00:00.000Z") = (Return r, w', t) ∧
    code r = 200 ∧
    member "status" (stored_record w') = Some (VString "banana") ∧
    is_status (VString "banana") = false.
Proof.
  do 3 eexists. split; [reflexivity|]. split; [reflexivity|].
  split; reflexivity.
Qed.

(** ** Reading *)

(** C6: while the module still holds its initial record and the KV store
    holds none, a GET returns 200 with that initial record, whose status is
    [idle], whatever the credentials and the state of the KV service. *)
Theorem GET_before_any_POST (boot : string) (w : World) :
  fallbackStore w = initial_fallbackStore boot →
  kv_data w !! KV_KEY = None →
  (∃ t, GET w = (Return (mkResponse 200 (initial_fallbackStore boot)), w, t)) ∧
  member "status" (initial_fallbackStore boot) = Some (VString "idle").
Proof.
  intros Hfb Hkv. split; [|reflexivity].
  rewrite GET_run, Hkv, Hfb.
  destruct (configured w), (kv_up w); by eexists.
Qed.

Lemma GET_before_any_POST_witness :
  (∃ t, GET (module_load kv_env true "2025-12-31T00:00:00.000Z") =
          (Return (mkResponse 200 (initial_fallbackStore "2025-12-31T00:00:00.000Z")),
           module_load kv_env true "2025-12-31T00:00:00.000Z", t)) ∧
  member "status" (initial_fallbackStore "2025-12-31T00:00:00.000Z") = Some (VString "idle").
Proof.
  refine (GET_before_any_POST "2025-12-31T00:00:00.000Z"
            (module_load kv_env true "2025-12-31T00:00:00.000Z") _ _).
  - reflexivity.
  - reflexivity.
Defined.

Lemma serve_under_cons (up : bool) (c : Call) (cs : list (bool * Call))
    (w w1 w' : World) r t1 rs t :
  handle c (with_kv_up up w) = (Return r, w1, t1) →
  serve_under cs w1 = (Return rs, w', t) →
  serve_under ((up, c) :: cs) w = (Return (r :: rs), w', (t1 ++ t)%list).
Proof.
  intros H1 H2. simpl. unfold mbind, M_bind, under. rewrite H1, H2. simpl.
  by rewrite app_nil_r.
Qed.

Lemma serve_under_GETs (ups : list bool) (w : World) :
  ∃ rs w' t,
    serve_under ((λ up, (up, CallGET)) <$> ups) w = (Return rs, w', t) ∧
    env w' = env w ∧ kv_data w' = kv_data w ∧ fallbackStore w' = fallbackStore w ∧
    length rs = length ups ∧
    ∀ i up r, ups !! i = Some up → rs !! i = Some r →
              ∃ t0, GET (with_kv_up up w) = (Return r, with_kv_up up w, t0).
Proof.
  revert w. induction ups as [|up ups IH]; intros w.
  - exists [], w, []. repeat split; done.
  - destruct (GET_returns (with_kv_up up w)) as (r & t0 & Hget).
    destruct (IH (with_kv_up up w)) as (rs & w' & t & Hrs & He & Hk & Hf & Hlen & Hall).
    exists (r :: rs), w', (t0 ++ t)%list.
    split; [exact (serve_under_cons up CallGET _ _ _ _ _ _ _ _ Hget Hrs)|].
    split; [done|]. split; [done|]. split; [done|].
    split; [simpl; by rewrite Hlen|].
    intros [|i] up' r'; simpl.
    + intros [= <-] [= <-]. by exists t0.
    + intros Hi Hr. apply (Hall i up' r' Hi Hr).
Qed.

(** C7, as amended: GETs made one after the other with no POST in between
    change neither [fallbackStore] nor the KV store nor the environment,
    whatever the KV service does in the meantime.  Each GET returns what a
    single GET returns in the initial world under the state the KV service
    is in when it is made, so any two GETs made under the same state of
    the KV service return identical responses. *)
Theorem GETs_leave_the_record_alone (ups : list bool) (w : World) :
  ∃ rs w' t,
    serve_under ((λ up, (up, CallGET)) <$> ups) w = (Return rs, w', t) ∧
    env w' = env w ∧ kv_data w' = kv_data w ∧ fallbackStore w' = fallbackStore w ∧
    length rs = length ups ∧
    (∀ i up r, ups !! i = Some up → rs !! i = Some r →
               ∃ t0, GET (with_kv_up up w) = (Return r, with_kv_up up w, t0)) ∧
    (∀ i j up ri rj, ups !! i = Some up → ups !! j = Some up →
                     rs !! i = Some ri → rs !! j = Some rj → ri = rj).
Proof.
  destruct (serve_under_GETs ups w) as (rs & w' & t & Hrs & He & Hk & Hf & Hlen & Hall).
  exists rs, w', t. repeat split; try done.
  intros i j up ri rj Hi Hj Hri Hrj.
  destruct (Hall i up ri Hi Hri) as [ti Hgi].
  destruct (Hall j up rj Hj Hrj) as [tj Hgj].
  rewrite Hgi in Hgj. by injection Hgj.
Qed.

Lemma GETs_leave_the_record_alone_witness :
  ∃ rs w' t,
    serve_under ((λ up, (up, CallGET)) <$> [true; false; true])
                (module_load kv_env true "2025-12-31T00:00:00.000Z") = (Return rs, w', t) ∧
    env w' = env (module_load kv_env true "2025-12-31T00:00:00.000Z") ∧
    kv_data w' = kv_data (module_load kv_env true "2025-12-31T00:00:00.000Z") ∧
    fallbackStore w' = fallbackStore (module_load kv_env true "2025-12-31T00:00:00.000Z") ∧
    length rs = length [true; false; true] ∧
    (∀ i up r, [true; false; true] !! i = Some up → rs !! i = Some r →
               ∃ t0, GET (with_kv_up up (module_load kv_env true "2025-12-31T00:00:00.000Z")) =
                       (Return r,
                        with_kv_up up (module_load kv_env true "2025-12-31T00:00:00.000Z"),
                        t0)) ∧
    (∀ i j up ri rj, [true; false; true] !! i = Some up → [true; false; true] !! j = Some up →
                     rs !! i = Some ri → rs !! j = Some rj → ri = rj).
Proof.
  exact (GETs_leave_the_record_alone [true; false; true]
           (module_load kv_env true "2025-12-31T00:00:00.000Z")).
Defined.

(** C7 fails as stated: after a POST to the KV store, a GET made while the
    service answers returns the posted record, and a GET made right after
    it while the service is down returns the initial record. *)
Lemma GETs_differ_across_an_outage :
  ∃ rp r1 r2 w' t,
    serve_under [(true, CallPOST "2026-01-01T00:00:00.000Z" (mkRequest (Json example_body)));
                 (true, CallGET); (false, CallGET)]
                (module_load kv_env true "2025-12-31T00:00:00.000Z") =
      (Return [rp; r1; r2], w', t) ∧
    code rp = 200 ∧ code r1 = 200 ∧ code r2 = 200 ∧
    member "status" (data r1) = Some (VString "uploading") ∧
    member "status" (data r2) = Some (VString "idle") ∧
    member "updatedAt" (data r1) = Some (VString "2026-01-01T00:00:00.000Z") ∧
    member "updatedAt" (data r2) = Some (VString "2025-12-31T00:00:00.000Z").
Proof.
  do 5 eexists. split; [reflexivity|]. repeat split; reflexivity.
Qed.

(** ** Choice of the backend *)

(** C8: for a GET, and for a POST whose body has properties: when both
    credentials are present the call goes to the KV store first ([kv.get]
    resp. [kv.set] of the new record under [KV_KEY]); a GET that the store
    answers returns [state || fallbackStore], a POST that the store answers
    changes the store, which then holds the new record as JSON, and not
    [fallbackStore].  When a credential is
    missing the call makes no KV call: the GET returns [fallbackStore], the
    POST assigns the new record to it. *)
Theorem backend_selection (now : string) (b : value) (w : World) :
  nullish b = false →
  (present "KV_REST_API_URL" w ∧ present "KV_REST_API_TOKEN" w →
     (∃ r t, GET w = (Return r, w, KvGet KV_KEY :: t) ∧
             (kv_up w = true →
              r = NextResponse_json
                    (JS.or (default VNull (kv_data w !! KV_KEY)) (fallbackStore w)))) ∧
     (∃ r w' t, POST now (mkRequest (Json b)) w =
                  (Return r, w', KvSet KV_KEY (state_for b now) :: t) ∧
                fallbackStore w' = fallbackStore w ∧
                (kv_up w = true →
                 kv_data w' = <[KV_KEY := to_json (state_for b now)]> (kv_data w)))) ∧
  (¬ (present "KV_REST_API_URL" w ∧ present "KV_REST_API_TOKEN" w) →
     GET w = (Return (NextResponse_json (fallbackStore w)), w, []) ∧
     POST now (mkRequest (Json b)) w =
       (Return (ok_response (state_for b now)),
        with_fallbackStore (state_for b now) w, [])).
Proof.
  intros Hb. rewrite <- configured_present, GET_run, POST_run by done. split.
  - intros ->. destruct (kv_up w); split.
    + eexists _, []. split; [reflexivity | intros _; reflexivity].
    + eexists _, _, []. split; [reflexivity|].
      split; [reflexivity | intros _; reflexivity].
    + eexists _, [_]. split; [reflexivity | discriminate].
    + eexists _, _, [_]. split; [reflexivity|].
      split; [reflexivity | discriminate].
  - intros Hc. apply not_true_is_false in Hc. by rewrite Hc.
Qed.

Lemma backend_selection_witness :
  (∃ r t, GET (module_load kv_env true "2025-12-31T00:00:00.000Z") =
            (Return r, module_load kv_env true "2025-12-31T00:00:00.000Z",
             KvGet KV_KEY :: t) ∧
          (kv_up (module_load kv_env true "2025-12-31T00:00:00.000Z") = true →
           r = NextResponse_json
                 (JS.or (default VNull
                           (kv_data (module_load kv_env true "2025-12-31T00:00:00.000Z")
                              !! KV_KEY))
                        (fallbackStore (module_load kv_env true "2025-12-31T00:00:00.000Z"))))) ∧
  (∃ r w' t, POST "2026-01-01T00:00:00.000Z" (mkRequest (Json example_body))
               (module_load kv_env true "2025-12-31T00:00:00.000Z") =
               (Return r, w',
                KvSet KV_KEY (state_for example_body "2026-01-01T00:00:00.000Z") :: t) ∧
             fallbackStore w' =
               fallbackStore (module_load kv_env true "2025-12-31T00:00:00.000Z") ∧
             (kv_up (module_load kv_env true "2025-12-31T00:00:00.000Z") = true →
              kv_data w' =
                <[KV_KEY := to_json (state_for example_body "2026-01-01T00:00:00.000Z")]>
                  (kv_data (module_load kv_env true "2025-12-31T00:00:00.000Z")))).
Proof.
  refine (proj1 (backend_selection "2026-01-01T00:00:00.000Z" example_body
                   (module_load kv_env true "2025-12-31T00:00:00.000Z") _) _).
  - reflexivity.
  - split; vm_compute; discriminate.
Defined.

(** ** An unavailable KV service *)

(** C4: with both credentials present and the KV service down, a GET is
    still answered with 200 and the fallback record, but a POST of the
    specification's example body is answered with 400 and
    [{success:false, error:"Invalid payload"}]; the record is written
    nowhere, [fallbackStore] included. *)
Theorem POST_fails_when_kv_is_down :
  GET (module_load kv_env false "2025-12-31T00:00:00.000Z") =
    (Return (mkResponse 200 (initial_fallbackStore "2025-12-31T00:00:00.000Z")),
     module_load kv_env false "2025-12-31T00:00:00.000Z",
     [KvGet KV_KEY; ConsoleError "API Error:" KvError]) ∧
  POST "2026-01-01T00:00:00.000Z" (mkRequest (Json example_body))
       (module_load kv_env false "2025-12-31T00:00:00.000Z") =
    (Return invalid_payload,
     module_load kv_env false "2025-12-31T00:00:00.000Z",
     [KvSet KV_KEY (state_for example_body "2026-01-01T00:00:00.000Z");
      ConsoleError "POST Error:" KvError]) ∧
  code invalid_payload = 400.
Proof. split; [|split]; reflexivity. Qed.

(** ** More on the two handlers *)

Lemma or_truthy (v d : value) : truthy d = true → truthy (JS.or v d) = true.
Proof. unfold JS.or. intros Hd. by destruct (truthy v) eqn:Hv. Qed.

Lemma or_keeps_or_defaults (v d : value) : survives (JS.or v d) d.
Proof. unfold survives, JS.or. destruct (truthy v) eqn:Hv; [by left | by right]. Qed.

Lemma or_or (v d1 d2 : value) :
  truthy d1 = false → JS.or (JS.or v d1) d2 = JS.or v d2.
Proof.
  unfold JS.or. intros Hd. destruct (truthy v) eqn:Hv; [by rewrite Hv | by rewrite Hd].
Qed.

Lemma survives_to_json (v d : value) :
  to_json d = d → survives v d → survives (to_json v) d ∨ to_json v = VNull.
Proof.
  intros Hd [Hv| ->]; [|left; right; done].
  destruct (truthy_to_json v Hv) as [Ht|Hn]; [left; by left | by right].
Qed.

Lemma survives_null_to_json (v : value) : survives v VNull → survives (to_json v) VNull.
Proof.
  intros Hv. destruct (survives_to_json v VNull eq_refl Hv) as [H|H]; [done | by right].
Qed.

Lemma survives_null_defined (v : value) : survives v VNull → v ≠ VUndefined.
Proof. intros [Hv|Hv] Hu; subst; discriminate. Qed.

Lemma state_for_ok (b : value) (now : string) : record_ok (state_for b now).
Proof.
  unfold record_ok, state_for, newState. do 5 eexists. split; [reflexivity|].
  split; [left; by apply or_truthy|]. split; [left; apply or_keeps_or_defaults|].
  split; apply or_keeps_or_defaults.
Qed.

Lemma record_ok_truthy (v : value) : record_ok v → truthy v = true.
Proof. by intros (s & m & r & d & u & -> & _). Qed.

(** The shape survives the passage through JSON. *)
Lemma to_json_record_ok (v : value) : record_ok v → record_ok (to_json v).
Proof.
  intros (s & m & r & d & u & -> & Hs & Hm & Hr & Hd).
  exists (to_json s), (to_json m), (to_json r), (to_json d), u. split.
  - apply to_json_record; try by apply survives_null_defined.
    destruct Hm as [[Hm| ->]| ->]; [by intros -> | done | done].
  - split; [by apply survives_null_to_json|].
    split; [|split; by apply survives_null_to_json].
    destruct Hm as [Hm| ->]; [|by right].
    destruct (survives_to_json m (VString "") eq_refl Hm); [by left | by right].
Qed.

Lemma with_kv_up_same (w : World) : with_kv_up (kv_up w) w = w.
Proof. by destruct w. Qed.

(** The four ways a POST can go. *)
Lemma POST_cases (now : string) (request : Request) (w : World) :
  (POST now request w = (Return invalid_payload, w, [ConsoleError "POST Error:" SyntaxError]) ∧
   body request = Malformed) ∨
  (POST now request w = (Return invalid_payload, w, [ConsoleError "POST Error:" TypeError]) ∧
   ∃ b, body request = Json b ∧ nullish b = true) ∨
  (∃ b, body request = Json b ∧ nullish b = false ∧
        configured w = true ∧ kv_up w = false ∧
        POST now request w =
          (Return invalid_payload, w,
           [KvSet KV_KEY (state_for b now); ConsoleError "POST Error:" KvError])) ∨
  (∃ b, body request = Json b ∧ nullish b = false ∧
        configured w = true ∧ kv_up w = true ∧
        POST now request w =
          (Return (ok_response (state_for b now)),
           with_kv_data (<[KV_KEY := to_json (state_for b now)]> (kv_data w)) w,
           [KvSet KV_KEY (state_for b now)])) ∨
  (∃ b, body request = Json b ∧ nullish b = false ∧
        configured w = false ∧
        POST now request w =
          (Return (ok_response (state_for b now)),
           with_fallbackStore (state_for b now) w, [])).
Proof.
  destruct request as [[|b]]; simpl.
  - left. by rewrite POST_malformed.
  - destruct (nullish b) eqn:Hb.
    + right; left. rewrite POST_nullish by done. eauto.
    + rewrite POST_run by done.
      destruct (configured w) eqn:Hc; [destruct (kv_up w) eqn:Hup|].
      * do 3 right. left. by exists b.
      * do 2 right. left. by exists b.
      * do 4 right. by exists b.
Qed.

(** After a POST answered with 200, a GET made while the KV service, if
    configured, answers returns the record of that POST as the backend
    keeps it. *)
Lemma POST_200_GET (now : string) (request : Request) (w w1 : World) r t (up : bool) :
  POST now request w = (Return r, w1, t) → code r = 200 →
  configured w = false ∨ up = true →
  ∃ b t2, body request = Json b ∧ r = ok_response (state_for b now) ∧
          GET (with_kv_up up w1) =
            (Return (mkResponse 200 (kept w (state_for b now))), with_kv_up up w1, t2).
Proof.
  intros Hrun Hcode Hup.
  destruct (POST_cases now request w)
    as [[H _]|[[H _]|[(b & Hb & _ & Hc & Hkv & H)|[(b & Hb & _ & Hc & Hkv & H)|(b & Hb & _ & Hc & H)]]]];
    rewrite H in Hrun; injection Hrun as <- <- <-; try discriminate Hcode.
  - destruct Hup as [Hf| ->]; [congruence|].
    exists b. eexists. split; [done|]. split; [done|].
    rewrite GET_run.
    change (configured (with_kv_up true (with_kv_data _ w))) with (configured w).
    rewrite Hc. cbn [kv_up with_kv_up kv_data with_kv_data fallbackStore].
    rewrite lookup_insert_eq. cbn [default from_option id].
    assert (Hor : ∀ x, JS.or (to_json (state_for b now)) x = to_json (state_for b now))
      by (intros x; rewrite to_json_state_for; reflexivity).
    rewrite Hor. unfold kept. rewrite Hc. reflexivity.
  - exists b. eexists. split; [done|]. split; [done|].
    rewrite GET_run.
    change (configured (with_kv_up up (with_fallbackStore _ w))) with (configured w).
    unfold kept. rewrite Hc. reflexivity.
Qed.

(** The same for a GET in the very world the POST left. *)
Lemma POST_200_GET_here (now : string) (request : Request) (w w1 : World) r t :
  POST now request w = (Return r, w1, t) → code r = 200 →
  ∃ b t2, body request = Json b ∧ r = ok_response (state_for b now) ∧
          GET w1 = (Return (mkResponse 200 (kept w (state_for b now))), w1, t2).
Proof.
  intros Hrun Hcode.
  assert (Hup : configured w = false ∨ kv_up w1 = true).
  { destruct (POST_cases now request w)
      as [[H _]|[[H _]|[(b & _ & _ & Hc & Hkv & H)|[(b & _ & _ & Hc & Hkv & H)|(b & _ & _ & Hc & H)]]]];
      rewrite H in Hrun; injection Hrun as <- <- <-; try discriminate Hcode; auto. }
  destruct (POST_200_GET _ _ _ _ _ _ (kv_up w1) Hrun Hcode Hup) as (b & t2 & Hb & Hr & Hget).
  rewrite with_kv_up_same in Hget. by exists b, t2.
Qed.

Lemma wire_ok_response (b : value) (now : string) :
  wire (ok_response (state_for b now)) =
  VObject [("success", VBool true); ("state", to_json (state_for b now))].
Proof. reflexivity. Qed.

Lemma served_GET (w : World) r w' t : GET w = (Return r, w', t) → served w = data r.
Proof. unfold served. by intros ->. Qed.

(** X1: a GET is answered with 200 in every world and changes nothing.  It
    hands out the KV record only when both credentials are present, the
    service answers and the record is truthy; in every other case it hands
    out [fallbackStore]. *)
Theorem GET_always_answers_200 (w : World) :
  ∃ r t, GET w = (Return r, w, t) ∧ code r = 200 ∧
         (data r = fallbackStore w ∨
          configured w = true ∧ kv_up w = true ∧
          ∃ v, kv_data w !! KV_KEY = Some v ∧ truthy v = true ∧ data r = v).
Proof.
  rewrite GET_run.
  destruct (configured w); [destruct (kv_up w)|];
    do 2 eexists; (split; [reflexivity|]); (split; [reflexivity|]); simpl; auto.
  destruct (kv_data w !! KV_KEY) as [v|] eqn:Hkv; simpl; [|by left].
  unfold JS.or. destruct (truthy v) eqn:Hv; [|by left].
  right. repeat split. by exists v.
Qed.

(** X2: a POST is answered with 200 or with 400.  It is answered with 400
    exactly when the body does not parse, is [null], or the credentials are
    present and the KV service is down; the response is then
    [{success:false, error:"Invalid payload"}], the world is unchanged and
    the last thing done is one [console.error].  Answered with 200, it
    writes nothing to the console. *)
Theorem POST_answers (now : string) (request : Request) (w : World) :
  ∃ r w' t, POST now request w = (Return r, w', t) ∧
    ((code r = 200 ∧
      Forall (λ ev, ∀ l e, ev ≠ ConsoleError l e) t ∧
      ∃ b, body request = Json b ∧ nullish b = false ∧
           (configured w = false ∨ kv_up w = true)) ∨
     (code r = 400 ∧ r = invalid_payload ∧ w' = w ∧
      (∃ e, last t = Some (ConsoleError "POST Error:" e)) ∧
      (body request = Malformed ∨
       (∃ b, body request = Json b ∧ nullish b = true) ∨
       (configured w = true ∧ kv_up w = false)))).
Proof.
  destruct (POST_cases now request w)
    as [[H Hb]|[[H Hb]|[(b & Hb & Hn & Hc & Hup & H)|[(b & Hb & Hn & Hc & Hup & H)|(b & Hb & Hn & Hc & H)]]]];
    rewrite H; do 3 eexists; (split; [reflexivity|]).
  - right. repeat split; eauto.
  - right. repeat split; eauto.
  - right. repeat split; eauto.
  - left. split; [reflexivity|]. split; [|eauto 6].
    repeat constructor. discriminate.
  - left. split; [reflexivity|]. split; [|eauto 6]. constructor.
Qed.

(** X3: when a POST is answered with 200, the [state] in the body of its
    response is exactly the body of the response to a GET made afterwards,
    provided no other POST comes in between and the KV service, if its
    credentials are configured, answers when the GET is made.  This holds
    for any body. *)
Theorem POST_response_is_next_GET
    (now : string) (request : Request) (w w1 : World) r1 t1 (up : bool) :
  POST now request w = (Return r1, w1, t1) →
  code r1 = 200 →
  configured w = false ∨ up = true →
  ∃ st r2 t2, member "state" (wire r1) = Some st ∧
              GET (with_kv_up up w1) = (Return r2, with_kv_up up w1, t2) ∧
              code r2 = 200 ∧ wire r2 = st.
Proof.
  intros Hrun Hcode Hup.
  destruct (POST_200_GET _ _ _ _ _ _ up Hrun Hcode Hup) as (b & t2 & _ & -> & Hget).
  exists (to_json (state_for b now)). eexists. exists t2.
  split; [by rewrite wire_ok_response|]. split; [exact Hget|].
  split; [reflexivity|]. unfold wire. simpl. apply to_json_kept.
Qed.

Lemma POST_response_is_next_GET_witness :
  ∃ st r2 t2,
    member "state" (wire (ok_response (state_for banana_body "2026-01-01T00:00:00.000Z")))
      = Some st ∧
    GET (with_kv_up true
           (with_kv_data (<[KV_KEY := to_json (state_for banana_body "2026-01-01T00:00:00.000Z")]> ∅)
              (module_load kv_env true "2025-12-31T00:00:00.000Z"))) =
      (Return r2,
       with_kv_up true
         (with_kv_data (<[KV_KEY := to_json (state_for banana_body "2026-01-01T00:00:00.000Z")]> ∅)
            (module_load kv_env true "2025-12-31T00:00:00.000Z")),
       t2) ∧
    code r2 = 200 ∧ wire r2 = st.
Proof.
  refine (POST_response_is_next_GET
            "2026-01-01T00:00:00.000Z" (mkRequest (Json banana_body))
            (module_load kv_env true "2025-12-31T00:00:00.000Z") _ _
            [KvSet KV_KEY (state_for banana_body "2026-01-01T00:00:00.000Z")] true _ _ _).
  - reflexivity.
  - reflexivity.
  - right. reflexivity.
Defined.

(** ** Sequences of calls *)

Lemma handle_served (c : Call) (w : World) :
  ∃ r w1 t, handle c w = (Return r, w1, t) ∧
            kv_up w1 = kv_up w ∧
            to_json (served w1) = to_json (default (served w) (last_write [c] [r])).
Proof.
  destruct c as [|now request]; simpl.
  - destruct (GET_returns w) as (r & t & Hget). by exists r, w, t.
  - destruct (POST_returns now request w) as (r & w1 & t & Hrun).
    exists r, w1, t. split; [done|].
    assert (Hkv : kv_up w1 = kv_up w).
    { destruct (POST_cases now request w)
        as [[H _]|[[H _]|[(b & _ & _ & _ & _ & H)|[(b & _ & _ & _ & _ & H)|(b & _ & _ & _ & H)]]]];
        rewrite H in Hrun; by injection Hrun as <- <- <-. }
    split; [done|].
    destruct (code r =? 200)%nat eqn:Hcode.
    + apply Nat.eqb_eq in Hcode.
      destruct (POST_200_GET_here _ _ _ _ _ _ Hrun Hcode) as (b & t2 & _ & -> & Hget).
      simpl. rewrite (served_GET _ _ _ _ Hget). simpl. apply to_json_kept.
    + destruct (POST_cases now request w)
        as [[H _]|[[H _]|[(b & _ & _ & _ & _ & H)|[(b & _ & _ & _ & _ & H)|(b & _ & _ & _ & H)]]]];
        rewrite H in Hrun; injection Hrun as <- <- <-; done.
Qed.

(** X4: while the KV service stays in the state it is in, any list of
    calls is served to the end, one response per call, and afterwards the
    body of a GET is the [state] of the last POST that was answered with
    200, as JSON; if there was none, it is what the body of a GET was
    before the calls. *)
Theorem GET_serves_last_write (cs : list (bool * Call)) (w : World) :
  Forall (λ c, c.1 = kv_up w) cs →
  ∃ rs w' t, serve_under cs w = (Return rs, w', t) ∧
             length rs = length cs ∧
             to_json (served w') = to_json (default (served w) (last_write cs.*2 rs)).
Proof.
  revert w. induction cs as [|[up c] cs IH]; intros w Hups.
  - by exists [], w, [].
  - apply Forall_cons in Hups as [Hup Hups]. simpl in Hup. subst up.
    destruct (handle_served c w) as (r & w1 & t1 & Hc & Hkv & Hs).
    rewrite <- Hkv in Hups.
    destruct (IH w1 Hups) as (rs & w' & t & Hrs & Hlen & Hs').
    exists (r :: rs), w', (t1 ++ t)%list.
    split.
    { apply serve_under_cons with w1; [|done]. by rewrite with_kv_up_same. }
    split; [simpl; by rewrite Hlen|].
    rewrite Hs'. rewrite fmap_cons. cbn [last_write snd].
    destruct (last_write cs.*2 rs); [done|]. exact Hs.
Qed.

Lemma GET_serves_last_write_witness :
  ∃ rs w' t,
    serve_under [(true, CallPOST "2026-01-01T00:00:00.000Z" (mkRequest (Json example_body)));
                 (true, CallPOST "2026-01-01T00:00:05.000Z" (mkRequest Malformed));
                 (true, CallGET)]
                (module_load kv_env true "2025-12-31T00:00:00.000Z") = (Return rs, w', t) ∧
    length rs = 3 ∧
    to_json (served w') =
      to_json (default (served (module_load kv_env true "2025-12-31T00:00:00.000Z"))
                 (last_write
                    [CallPOST "2026-01-01T00:00:00.000Z" (mkRequest (Json example_body));
                     CallPOST "2026-01-01T00:00:05.000Z" (mkRequest Malformed);
                     CallGET] rs)).
Proof.
  refine (GET_serves_last_write
            [(true, CallPOST "2026-01-01T00:00:00.000Z" (mkRequest (Json example_body)));
             (true, CallPOST "2026-01-01T00:00:05.000Z" (mkRequest Malformed));
             (true, CallGET)]
            (module_load kv_env true "2025-12-31T00:00:00.000Z") _).
  repeat constructor.
Defined.

(** X5: a member of the body whose key is none of [status], [message],
    [reelId], [sender] changes nothing, wherever it stands: the POST does
    exactly what it does on the body without it, and the record it builds
    has no member of that key unless the key is [updatedAt]. *)
Theorem POST_ignores_other_members
    (now : string) (ms1 ms2 : list (string * value)) (k : string) (v : value) (w : World) :
  k ∉ defaults.*1 →
  POST now (mkRequest (Json (VObject (ms1 ++ (k, v) :: ms2)))) w =
    POST now (mkRequest (Json (VObject (ms1 ++ ms2)))) w ∧
  (k ≠ "updatedAt" →
   member k (state_for (VObject (ms1 ++ (k, v) :: ms2)) now) = None).
Proof.
  intros Hk. simpl in Hk. rewrite !not_elem_of_cons in Hk.
  destruct Hk as (Hst & Hmsg & Hrid & Hsnd & _).
  split.
  - apply POST_ext; [done|]. intros k' d Hin. simpl.
    rewrite own_property_middle; [done|].
    revert Hin. unfold defaults. rewrite !elem_of_cons, elem_of_nil.
    intros [[= -> _]|[[= -> _]|[[= -> _]|[[= -> _]|[]]]]]; by apply not_eq_sym.
  - intros Hu. simpl.
    rewrite (proj2 (String.eqb_neq k "updatedAt") Hu),
      (proj2 (String.eqb_neq k "sender") Hsnd),
      (proj2 (String.eqb_neq k "reelId") Hrid),
      (proj2 (String.eqb_neq k "message") Hmsg),
      (proj2 (String.eqb_neq k "status") Hst).
    reflexivity.
Qed.

Lemma POST_ignores_other_members_witness :
  POST "2026-01-01T00:00:00.000Z"
       (mkRequest (Json (VObject ([("status", VString "completed")] ++
                                  ("progress", VNumber (Number 7 0)) :: []))))
       (module_load ∅ true "2025-12-31T00:00:00.000Z") =
  POST "2026-01-01T00:00:00.000Z"
       (mkRequest (Json (VObject ([("status", VString "completed")] ++ []))))
       (module_load ∅ true "2025-12-31T00:00:00.000Z").
Proof.
  refine (proj1 (POST_ignores_other_members
            "2026-01-01T00:00:00.000Z" [("status", VString "completed")] []
            "progress" (VNumber (Number 7 0))
            (module_load ∅ true "2025-12-31T00:00:00.000Z") _)).
  unfold defaults. simpl. rewrite !elem_of_cons, elem_of_nil.
  intros [H|[H|[H|[H|[]]]]]; discriminate H.
Defined.

(** X6: a POST that reaches the KV store leaves [fallbackStore] as it was,
    so if the KV service goes down afterwards a GET answers 200 with the
    record from before the POST, not with the posted one, which a GET
    returns, as JSON, while the service answers. *)
Theorem GET_is_stale_after_outage (now : string) (b : value) (w w1 : World) r t :
  present "KV_REST_API_URL" w ∧ present "KV_REST_API_TOKEN" w →
  kv_up w = true →
  nullish b = false →
  POST now (mkRequest (Json b)) w = (Return r, w1, t) →
  r = ok_response (state_for b now) ∧
  served w1 = to_json (state_for b now) ∧
  GET (with_kv_up false w1) =
    (Return (mkResponse 200 (fallbackStore w)), with_kv_up false w1,
     [KvGet KV_KEY; ConsoleError "API Error:" KvError]).
Proof.
  intros Hc Hup Hb Hrun. apply configured_present in Hc.
  assert (Hrun' := Hrun). rewrite POST_run, Hc, Hup in Hrun' by done.
  injection Hrun' as <- Hw1 _.
  split; [done|]. split.
  - destruct (POST_200_GET_here _ _ _ _ _ _ Hrun eq_refl) as (b0 & t2 & [= <-] & _ & Hget).
    rewrite (served_GET _ _ _ _ Hget). unfold kept. by rewrite Hc.
  - subst w1. rewrite GET_run.
    change (configured (with_kv_up _ _)) with (configured w). by rewrite Hc.
Qed.

Lemma GET_is_stale_after_outage_witness :
  served (with_kv_data (<[KV_KEY := to_json (state_for example_body "2026-01-01T00:00:00.000Z")]> ∅)
            (module_load kv_env true "2025-12-31T00:00:00.000Z")) =
    to_json (state_for example_body "2026-01-01T00:00:00.000Z") ∧
  GET (with_kv_up false
         (with_kv_data (<[KV_KEY := to_json (state_for example_body "2026-01-01T00:00:00.000Z")]> ∅)
            (module_load kv_env true "2025-12-31T00:00:00.000Z"))) =
    (Return (mkResponse 200 (initial_fallbackStore "2025-12-31T00:00:00.000Z")),
     with_kv_up false
       (with_kv_data (<[KV_KEY := to_json (state_for example_body "2026-01-01T00:00:00.000Z")]> ∅)
          (module_load kv_env true "2025-12-31T00:00:00.000Z")),
     [KvGet KV_KEY; ConsoleError "API Error:" KvError]).
Proof.
  refine (proj2 (GET_is_stale_after_outage
            "2026-01-01T00:00:00.000Z" example_body
            (module_load kv_env true "2025-12-31T00:00:00.000Z") _ _
            [KvSet KV_KEY (state_for example_body "2026-01-01T00:00:00.000Z")]
            _ _ _ _)).
  - split; vm_compute; discriminate.
  - reflexivity.
  - reflexivity.
  - reflexivity.
Defined.

Lemma GET_ok (w : World) :
  world_ok w →
  ∃ r t, GET w = (Return r, w, t) ∧ code r = 200 ∧
         record_ok (data r) ∧ record_ok (wire r).
Proof.
  intros [Hfb Hkv].
  assert (Hdata : ∃ r t, GET w = (Return r, w, t) ∧ code r = 200 ∧ record_ok (data r)).
  { rewrite GET_run.
    destruct (configured w); [destruct (kv_up w)|];
      do 2 eexists; (split; [reflexivity|]); (split; [reflexivity|]); simpl; try done.
    destruct (kv_data w !! KV_KEY) as [v|] eqn:Hv; simpl; [|done].
    unfold JS.or. by rewrite (record_ok_truthy v (Hkv v eq_refl)); auto. }
  destruct Hdata as (r & t & Hget & Hcode & Hrec).
  exists r, t. repeat split; try done. by apply to_json_record_ok.
Qed.

Lemma handle_ok (c : Call) (w : World) :
  world_ok w →
  ∃ r w1 t, handle c w = (Return r, w1, t) ∧ world_ok w1 ∧
            (c = CallGET → code r = 200 ∧ record_ok (data r) ∧ record_ok (wire r)).
Proof.
  intros Hw. destruct c as [|now request]; simpl.
  - destruct (GET_ok w Hw) as (r & t & Hget & Hrest). by exists r, w, t.
  - destruct Hw as [Hfb Hkv].
    destruct (POST_cases now request w)
      as [[H _]|[[H _]|[(b & _ & _ & _ & _ & H)|[(b & _ & _ & _ & _ & H)|(b & _ & _ & _ & H)]]]];
      rewrite H; do 3 eexists; (split; [reflexivity|]); (split; [|done]);
      try done.
    + split; [done|]. cbn [kv_data with_kv_data]. intros v.
      rewrite lookup_insert_eq. intros Hv.
      assert (v = to_json (state_for b now)) as -> by congruence.
      apply to_json_record_ok, state_for_ok.
    + split; [apply state_for_ok | done].
Qed.

Lemma module_load_ok (e : gmap string string) (up : bool) (boot : string) :
  world_ok (module_load e up boot).
Proof.
  split.
  - exists (VString "idle"), (VString "Bot is initializing..."), VNull, VNull, boot.
    split; [reflexivity|]. split; [by left|].
    split; [left; by left|]. split; by right.
  - intros v. simpl. by rewrite lookup_empty.
Qed.

(** X7: the world at module load holds records of the shape of a status
    record: the five members in order, a status that is truthy or [null],
    a message that is truthy, empty or [null], a reelId and a sender that
    are truthy or [null], and a string for [updatedAt].  From a world that
    does, whatever calls are served and whatever the KV service does in
    between, the world stays so, and every GET among the calls is answered
    with 200 and a record of that shape, in the response and in the body
    the client reads. *)
Theorem served_records_keep_their_shape
    (cs : list (bool * Call)) (w : World)
    (e : gmap string string) (up0 : bool) (boot : string) :
  world_ok (module_load e up0 boot) ∧
  (world_ok w →
   ∃ rs w' t, serve_under cs w = (Return rs, w', t) ∧ world_ok w' ∧
     ∀ i up r, cs !! i = Some (up, CallGET) → rs !! i = Some r →
               code r = 200 ∧ record_ok (data r) ∧ record_ok (wire r)).
Proof.
  split; [apply module_load_ok|].
  revert w. induction cs as [|[up c] cs IH]; intros w Hw.
  - exists [], w, []. split; [done|]. split; [done|]. intros i up r Hi. by destruct i.
  - assert (Hw0 : world_ok (with_kv_up up w)) by exact Hw.
    destruct (handle_ok c _ Hw0) as (r & w1 & t1 & Hc & Hw1 & Hget).
    destruct (IH w1 Hw1) as (rs & w' & t & Hrs & Hw' & Hall).
    exists (r :: rs), w', (t1 ++ t)%list.
    split; [by apply serve_under_cons with w1|]. split; [done|].
    intros [|i] up' r'; simpl.
    + intros [= -> ->] [= <-]. by apply Hget.
    + apply Hall.
Qed.

Lemma served_records_keep_their_shape_witness :
  ∃ rs w' t,
    serve_under [(true, CallPOST "2026-01-01T00:00:00.000Z" (mkRequest (Json empty_status_body)));
                 (false, CallGET); (true, CallGET)]
                (module_load kv_env true "2025-12-31T00:00:00.000Z") = (Return rs, w', t) ∧
    world_ok w' ∧
    ∀ i up r,
      [(true, CallPOST "2026-01-01T00:00:00.000Z" (mkRequest (Json empty_status_body)));
       (false, CallGET); (true, CallGET)] !! i = Some (up, CallGET) →
      rs !! i = Some r → code r = 200 ∧ record_ok (data r) ∧ record_ok (wire r).
Proof.
  exact (proj2 (served_records_keep_their_shape
                  [(true, CallPOST "2026-01-01T00:00:00.000Z" (mkRequest (Json empty_status_body)));
                   (false, CallGET); (true, CallGET)]
                  (module_load kv_env true "2025-12-31T00:00:00.000Z")
                  kv_env true "2025-12-31T00:00:00.000Z")
               (module_load_ok kv_env true "2025-12-31T00:00:00.000Z")).
Defined.

(** ** The dashboard *)

Lemma is_status_cases (v : value) :
  is_status v = true →
  v = VString "idle" ∨ v = VString "downloading" ∨ v = VString "uploading" ∨
  v = VString "completed" ∨ v = VString "error".
Proof.
  destruct v as [| | | |s| |]; try discriminate. simpl.
  rewrite bool_decide_eq_true. unfold statuses.
  rewrite !elem_of_cons, elem_of_nil.
  intros [->|[->|[->|[->|[->|[]]]]]]; auto 6.
Qed.

Lemma not_status_strict (v : value) (s : string) :
  is_status v = false → s ∈ statuses → Dashboard.strict_eq_string v s = false.
Proof.
  destruct v as [| | | |s'| |]; try done. simpl.
  rewrite bool_decide_eq_false. intros Hnot Hin.
  apply String.eqb_neq. by intros ->.
Qed.

(** The presentation of a status that is none of the five. *)
Lemma unknown_status_presentation (v : value) :
  is_status v = false →
  Dashboard.getStatusColor v = "text-slate-400" ∧
  Dashboard.getStatusIcon v = Dashboard.mkIcon "Clock" "w-6 h-6 text-slate-400" ∧
  Dashboard.glowColor v = "bg-slate-500" ∧
  Dashboard.strict_eq_string v "uploading" = false ∧
  Dashboard.strict_eq_string v "downloading" = false.
Proof.
  intros Hv.
  assert (H1 := not_status_strict v "idle" Hv).
  assert (H2 := not_status_strict v "downloading" Hv).
  assert (H3 := not_status_strict v "uploading" Hv).
  assert (H4 := not_status_strict v "completed" Hv).
  assert (H5 := not_status_strict v "error" Hv).
  unfold Dashboard.getStatusColor, Dashboard.getStatusIcon, Dashboard.glowColor.
  rewrite H1, H2, H3, H4, H5; [done|..]; unfold statuses; set_solver.
Qed.

(** X8: for every state of the component, the text colour, the icon and
    the background glow are of one hue, one of slate, blue, purple, emerald
    and rose: the text class is [text-HUE-400], the icon class is
    [w-6 h-6 text-HUE-400] followed by nothing, by [ animate-pulse] or by
    [ animate-bounce], and the glow class is [bg-HUE-500]. *)
Theorem status_hue_is_consistent (botState : value) :
  let status := Dashboard.optional_property botState "status" in
  ∃ hue anim,
    hue ∈ ["slate"; "blue"; "purple"; "emerald"; "rose"] ∧
    anim ∈ [""; " animate-pulse"; " animate-bounce"] ∧
    Dashboard.getStatusColor (JS.or status (VString "idle")) = "text-" +:+ hue +:+ "-400" ∧
    Dashboard.className (Dashboard.getStatusIcon (JS.or status (VString "idle"))) =
      "w-6 h-6 text-" +:+ hue +:+ "-400" +:+ anim ∧
    Dashboard.glowColor status = "bg-" +:+ hue +:+ "-500".
Proof.
  intros status. generalize status. clear. intros v.
  destruct (is_status v) eqn:Hv.
  - assert (Ht : JS.or v (VString "idle") = v)
      by (destruct (is_status_cases v Hv) as [->|[->|[->|[->| ->]]]]; reflexivity).
    rewrite Ht.
    destruct (is_status_cases v Hv) as [->|[->|[->|[->| ->]]]].
    + exists "slate", "". repeat split; set_solver.
    + exists "blue", " animate-pulse". repeat split; set_solver.
    + exists "purple", " animate-bounce". repeat split; set_solver.
    + exists "emerald", "". repeat split; set_solver.
    + exists "rose", "". repeat split; set_solver.
  - destruct (unknown_status_presentation v Hv) as (_ & _ & Hg & _).
    exists "slate", "". rewrite Hg.
    split; [set_solver|]. split; [set_solver|].
    destruct (is_status (JS.or v (VString "idle"))) eqn:Hor.
    + assert (JS.or v (VString "idle") = VString "idle") as ->; [|done].
      unfold JS.or in *. destruct (truthy v); [congruence | done].
    + destruct (unknown_status_presentation _ Hor) as (-> & -> & _). done.
Qed.

(** X9: a record whose status is none of the five states, [banana] or a
    number say, is shown exactly like an idle one: clock icon, slate text
    and glow, no progress bar. *)
Theorem unknown_status_shows_as_idle (d : Dashboard.Dash) :
  Dashboard.loading d = false →
  is_status (Dashboard.optional_property (Dashboard.botState d) "status") = false →
  ∃ c, Dashboard.render d = Dashboard.ShowCard c ∧
       Dashboard.icon c = Dashboard.getStatusIcon (VString "idle") ∧
       Dashboard.color c = Dashboard.getStatusColor (VString "idle") ∧
       Dashboard.glow c = Dashboard.glowColor (VString "idle") ∧
       Dashboard.uploadingBar c = None ∧
       Dashboard.downloadingBar c = None.
Proof.
  intros Hl Hs. unfold Dashboard.render. rewrite Hl. eexists. split; [reflexivity|].
  simpl.
  destruct (unknown_status_presentation _ Hs) as (_ & _ & -> & -> & ->).
  assert (Hor : Dashboard.getStatusIcon
                  (JS.or (Dashboard.optional_property (Dashboard.botState d) "status")
                         (VString "idle")) = Dashboard.getStatusIcon (VString "idle") ∧
                Dashboard.getStatusColor
                  (JS.or (Dashboard.optional_property (Dashboard.botState d) "status")
                         (VString "idle")) = Dashboard.getStatusColor (VString "idle")).
  { unfold JS.or.
    destruct (truthy (Dashboard.optional_property (Dashboard.botState d) "status"));
      [|done].
    by destruct (unknown_status_presentation _ Hs) as (-> & -> & _). }
  destruct Hor as [-> ->]. done.
Qed.

Lemma unknown_status_shows_as_idle_witness :
  ∃ c, Dashboard.render (Dashboard.mkDash (state_for banana_body "2026-01-01T00:00:00.000Z") false)
         = Dashboard.ShowCard c ∧
       Dashboard.icon c = Dashboard.getStatusIcon (VString "idle") ∧
       Dashboard.color c = Dashboard.getStatusColor (VString "idle") ∧
       Dashboard.glow c = Dashboard.glowColor (VString "idle") ∧
       Dashboard.uploadingBar c = None ∧
       Dashboard.downloadingBar c = None.
Proof.
  refine (unknown_status_shows_as_idle
            (Dashboard.mkDash (state_for banana_body "2026-01-01T00:00:00.000Z") false) _ _).
  - reflexivity.
  - reflexivity.
Defined.

Lemma fetchStatus_state (res : Dashboard.FetchOutcome) (d : Dashboard.Dash) :
  Dashboard.botState (Dashboard.fetchStatus res d).1 =
    default (Dashboard.botState d) (Dashboard.last_data [res]) ∧
  Dashboard.loading (Dashboard.fetchStatus res d).1 = false.
Proof.
  destruct res as [|status [|v]]; simpl; try done;
    unfold Dashboard.fetchStatus; destruct (Dashboard.res_ok status); done.
Qed.

Lemma polls_state (rs : list Dashboard.FetchOutcome) (d : Dashboard.Dash) :
  Dashboard.botState (Dashboard.polls rs d) =
    default (Dashboard.botState d) (Dashboard.last_data rs) ∧
  Dashboard.loading (Dashboard.polls rs d) =
    match rs with [] => Dashboard.loading d | _ => false end.
Proof.
  revert d. induction rs as [|r rs IH]; intros d; [done|].
  destruct (fetchStatus_state r d) as [Hb Hl].
  destruct (IH (Dashboard.fetchStatus r d).1) as [IHb IHl].
  change (Dashboard.polls (r :: rs) d)
    with (Dashboard.polls rs (Dashboard.fetchStatus r d).1).
  split.
  - rewrite IHb, Hb. simpl. by destruct (Dashboard.last_data rs).
  - rewrite IHl, Hl. by destruct rs.
Qed.

(** X10: after any number of polls the component holds the data of the
    last response that was ok (status 200 to 299) and parsed, or what it
    held before if there was none: a rejected fetch, an error status or an
    unparsable body never clears or replaces the record on display.  After
    the first poll, whatever its outcome, the spinner is gone for good. *)
Theorem polls_keep_last_good_response
    (rs : list Dashboard.FetchOutcome) (d : Dashboard.Dash) :
  Dashboard.botState (Dashboard.polls rs d) =
    default (Dashboard.botState d) (Dashboard.last_data rs) ∧
  (rs ≠ [] → Dashboard.loading (Dashboard.polls rs d) = false ∧
             ∃ c, Dashboard.render (Dashboard.polls rs d) = Dashboard.ShowCard c).
Proof.
  destruct (polls_state rs d) as [Hb Hl]. split; [done|].
  intros Hne. assert (Hl' : Dashboard.loading (Dashboard.polls rs d) = false)
    by (rewrite Hl; by destruct rs).
  split; [done|]. unfold Dashboard.render. rewrite Hl'. by eexists.
Qed.

Lemma polls_keep_last_good_response_witness :
  Dashboard.loading
    (Dashboard.polls [Dashboard.FetchResponse 200 (Json example_body);
                      Dashboard.FetchRejected;
                      Dashboard.FetchResponse 500 (Json VNull)]
                     Dashboard.initial) = false ∧
  ∃ c, Dashboard.render
         (Dashboard.polls [Dashboard.FetchResponse 200 (Json example_body);
                           Dashboard.FetchRejected;
                           Dashboard.FetchResponse 500 (Json VNull)]
                          Dashboard.initial) = Dashboard.ShowCard c.
Proof.
  refine (proj2 (polls_keep_last_good_response
            [Dashboard.FetchResponse 200 (Json example_body);
             Dashboard.FetchRejected;
             Dashboard.FetchResponse 500 (Json VNull)]
            Dashboard.initial) _).
  discriminate.
Defined.

(** X11: as long as no poll has brought data, the component, started at
    [null], shows the placeholder card once the first poll is over: key
    [empty], clock icon, slate colours, the text [Waiting for DMs...], no
    sender, no reel id, no time and no progress bar. *)
Theorem placeholder_card_without_data (rs : list Dashboard.FetchOutcome) :
  rs ≠ [] →
  Dashboard.last_data rs = None →
  Dashboard.render (Dashboard.polls rs Dashboard.initial) =
    Dashboard.ShowCard
      {| Dashboard.key := VString "empty";
         Dashboard.glow := "bg-slate-500";
         Dashboard.icon := Dashboard.mkIcon "Clock" "w-6 h-6 text-slate-400";
         Dashboard.color := "text-slate-400";
         Dashboard.message := VString "Waiting for DMs...";
         Dashboard.senderBadge := Dashboard.Falsy VUndefined;
         Dashboard.reelLabel := Dashboard.Falsy VUndefined;
         Dashboard.lastUpdated := None;
         Dashboard.uploadingBar := None;
         Dashboard.downloadingBar := None |}.
Proof.
  intros Hne Hnone.
  destruct (polls_state rs Dashboard.initial) as [Hb Hl].
  rewrite Hnone in Hb. simpl in Hb.
  assert (Hl' : Dashboard.loading (Dashboard.polls rs Dashboard.initial) = false)
    by (rewrite Hl; by destruct rs).
  unfold Dashboard.render. rewrite Hl', Hb. reflexivity.
Qed.

Lemma placeholder_card_without_data_witness :
  Dashboard.render
    (Dashboard.polls [Dashboard.FetchRejected; Dashboard.FetchResponse 404 Malformed]
                     Dashboard.initial) =
    Dashboard.ShowCard
      {| Dashboard.key := VString "empty";
         Dashboard.glow := "bg-slate-500";
         Dashboard.icon := Dashboard.mkIcon "Clock" "w-6 h-6 text-slate-400";
         Dashboard.color := "text-slate-400";
         Dashboard.message := VString "Waiting for DMs...";
         Dashboard.senderBadge := Dashboard.Falsy VUndefined;
         Dashboard.reelLabel := Dashboard.Falsy VUndefined;
         Dashboard.lastUpdated := None;
         Dashboard.uploadingBar := None;
         Dashboard.downloadingBar := None |}.
Proof.
  refine (placeholder_card_without_data
            [Dashboard.FetchRejected; Dashboard.FetchResponse 404 Malformed] _ _).
  - discriminate.
  - reflexivity.
Defined.







